(** * The column-mapping and metrics engine of [src/utils/dataProcessing.js]

    A shallow embedding of [findColumnMatch], [validateMediaData],
    [calculateBasicMetrics], [getDataSummary] and [prepareDataForAI], of the
    object that [processCSVFile] builds from a parsed file, of the basic
    revision of the validator and of the metrics, and of the upload handler
    of [src/components/MediaPlannerApp.js] that calls them, together with
    the JavaScript built-ins they use, and the properties of them that the
    specification states or that the code shows.

    Conventions of the embedding.
    - A JavaScript number is an IEEE 754 binary64 value: Rocq's primitive
      [float].  Decimal text is converted both ways through exact integer
      arithmetic ([JsNumber.ofRatio], [JsNumber.toString]).
    - A JavaScript string is a [string] of 8-bit characters.  Case folding
      and white space are those of ASCII; headers outside ASCII are outside
      the model.
    - A function that can throw returns a [result].
    - An object used as a dictionary ([foundMappings], [metrics]) is a
      [gmap string _]; an object with a fixed shape is a record whose
      optional fields are the properties that some code path leaves out. *)

From Stdlib Require Import ZArith Floats String Ascii List Bool Lia DecimalString.
From stdpp Require Import gmap strings list fin_maps.

Local Open Scope string_scope.
Local Open Scope list_scope.

(** ** Strings *)

Module JsString.

Definition isWhiteSpace (c : ascii) : bool :=
  let n := nat_of_ascii c in
  ((9 <=? n)%nat && (n <=? 13)%nat) || (n =? 32)%nat.

Definition lowerChar (c : ascii) : ascii :=
  let n := nat_of_ascii c in
  if ((65 <=? n)%nat && (n <=? 90)%nat) then ascii_of_nat (n + 32) else c.

(** [s.toLowerCase()] *)
Fixpoint toLowerCase (s : string) : string :=
  match s with
  | EmptyString => EmptyString
  | String c s' => String (lowerChar c) (toLowerCase s')
  end.

Fixpoint trimStart (s : string) : string :=
  match s with
  | String c s' => if isWhiteSpace c then trimStart s' else s
  | EmptyString => EmptyString
  end.

Fixpoint trimEnd (s : string) : string :=
  match s with
  | EmptyString => EmptyString
  | String c s' =>
      match trimEnd s' with
      | EmptyString => if isWhiteSpace c then EmptyString else String c EmptyString
      | t => String c t
      end
  end.

(** [s.trim()] *)
Definition trim (s : string) : string := trimEnd (trimStart s).

(** [s.replace(/\s+/g, r)]: every maximal run of white space becomes one [r]. *)
Fixpoint replaceWhiteSpaceRuns (r : string) (s : string) : string :=
  match s with
  | EmptyString => EmptyString
  | String c s' =>
      if isWhiteSpace c
      then match s' with
           | String c' _ =>
               if isWhiteSpace c' then replaceWhiteSpaceRuns r s'
               else r +:+ replaceWhiteSpaceRuns r s'
           | EmptyString => r
           end
      else String c (replaceWhiteSpaceRuns r s')
  end.

(** [s.replace(/[...]/g, '')], the character class given as a predicate. *)
Fixpoint removeChars (p : ascii -> bool) (s : string) : string :=
  match s with
  | EmptyString => EmptyString
  | String c s' => if p c then removeChars p s' else String c (removeChars p s')
  end.

Definition isPercent (c : ascii) : bool := Ascii.eqb c "%".
Definition isDashOrUnderscore (c : ascii) : bool := Ascii.eqb c "-" || Ascii.eqb c "_".

Fixpoint startsWith (s search : string) : bool :=
  match search, s with
  | EmptyString, _ => true
  | String _ _, EmptyString => false
  | String a search', String b s' => Ascii.eqb a b && startsWith s' search'
  end.

(** [s.includes(search)] *)
Fixpoint includes (s search : string) : bool :=
  startsWith s search ||
  match s with
  | EmptyString => false
  | String _ s' => includes s' search
  end.

(** [l.join(sep)] on an array of strings *)
Fixpoint join (sep : string) (l : list string) : string :=
  match l with
  | [] => EmptyString
  | [x] => x
  | x :: l' => x +:+ sep +:+ join sep l'
  end.

Fixpoint zeros (n : nat) : string :=
  match n with
  | O => EmptyString
  | S n' => String "0" (zeros n')
  end.

End JsString.

(** ** Numbers *)

Module JsNumber.
Import JsString.
Local Open Scope Z_scope.

Definition ofDigits (n : Z) : string := NilZero.string_of_uint (N.to_uint (Z.to_N n)).

Definition roundHalfEven (num den : Z) : Z :=
  let q := num / den in
  match 2 * (num mod den) ?= den with
  | Lt => q
  | Gt => q + 1
  | Eq => if Z.even q then q else q + 1
  end.

(** The double nearest to the rational [p / q], ties to even ([0 <= p], [0 < q]). *)
Definition ofRatio (p q : Z) : float :=
  if p <=? 0 then PrimFloat.zero
  else
    let l := Z.log2 p - Z.log2 q in
    let e2 := if q * 2 ^ Z.max 0 l <=? p * 2 ^ Z.max 0 (- l) then l else l - 1 in
    let e := Z.max (e2 - 52) (-1074) in
    let m := if 0 <=? e then roundHalfEven p (q * 2 ^ e)
             else roundHalfEven (p * 2 ^ (- e)) q in
    SF2Prim (binary_normalize prec emax m e false).

Definition ofZ (n : Z) : float :=
  if n <? 0 then (- ofRatio (- n) 1)%float else ofRatio n 1.

(** The number that an array length is. *)
Definition ofNat (n : nat) : float := ofZ (Z.of_nat n).

(** The exact value of a finite non-zero double, sign dropped, as a ratio. *)
Definition toRatio (x : float) : option (Z * Z) :=
  match Prim2SF x with
  | S754_finite _ m e =>
      Some (if 0 <=? e then (Zpos m * 2 ^ e, 1) else (Zpos m, 2 ^ (- e)))
  | _ => None
  end.

(** [p / q >= 10 ^ k] *)
Definition gePow10 (p q k : Z) : bool :=
  if 0 <=? k then q * 10 ^ k <=? p else q <=? p * 10 ^ (- k).

Fixpoint searchExp10 (fuel : nat) (p q n : Z) : Z :=
  match fuel with
  | O => n
  | S fuel' => if gePow10 p q n then searchExp10 fuel' p q (n + 1) else n
  end.

(** The [n] with [10 ^ (n - 1) <= p / q < 10 ^ n]. *)
Definition exp10 (p q : Z) : Z :=
  searchExp10 8 p q ((Z.log2 p - Z.log2 q) * 30103 / 100000 - 2).

(** [s * 10 ^ d] as a ratio. *)
Definition scale10 (s d : Z) : Z * Z :=
  if 0 <=? d then (s * 10 ^ d, 1) else (s, 10 ^ (- d)).

Definition roundsTo (x : float) (s d : Z) : bool :=
  let '(vp, vq) := scale10 s d in PrimFloat.eqb (ofRatio vp vq) x.

(** Number::toString, step 5: the digits [s], their number [k] (as small as
    possible) and the exponent [n] with [s * 10 ^ (n - k)] rounding to [x];
    among several [s] the one closest to [x]. *)
Fixpoint shortest (fuel : nat) (x : float) (p q n k : Z) : Z * Z * Z :=
  let '(yp, yq) := if 0 <=? n - k then (p, q * 10 ^ (n - k)) else (p * 10 ^ (k - n), q) in
  let lo := yp / yq in
  let hi := lo + 1 in
  let pref := roundHalfEven yp yq in
  let other := if pref =? lo then hi else lo in
  let norm s := if s =? 10 ^ k then (10 ^ (k - 1), n + 1, k) else (s, n, k) in
  let ok s := (10 ^ (k - 1) <=? s) && roundsTo x s (n - k) in
  if ok pref then norm pref
  else if ok other then norm other
  else match fuel with
       | O => norm pref
       | S fuel' => shortest fuel' x p q n (k + 1)
       end.

Definition expSuffix (n : Z) : string :=
  "e" +:+ (if 0 <=? n - 1 then "+" else "-") +:+ ofDigits (Z.abs (n - 1)).

(** Number::toString of a finite double [x > 0]. *)
Definition positiveToString (x : float) : string :=
  match toRatio x with
  | None => "0"
  | Some (p, q) =>
      let '(s, n, k) := shortest 17 x p q (exp10 p q) 1 in
      let ds := ofDigits s in
      if (k <=? n) && (n <=? 21) then ds +:+ zeros (Z.to_nat (n - k))
      else if (0 <? n) && (n <=? 21) then
        substring 0 (Z.to_nat n) ds +:+ "." +:+ substring (Z.to_nat n) (Z.to_nat (k - n)) ds
      else if (-6 <? n) && (n <=? 0) then "0." +:+ zeros (Z.to_nat (- n)) +:+ ds
      else if k =? 1 then ds +:+ expSuffix n
      else substring 0 1 ds +:+ "." +:+ substring 1 (Z.to_nat (k - 1)) ds +:+ expSuffix n
  end.

(** Number::toString, radix 10: [String(x)], [x.toString()], a number in a
    template literal. *)
Definition toString (x : float) : string :=
  if PrimFloat.is_nan x then "NaN"
  else if PrimFloat.is_zero x then "0"
  else if PrimFloat.is_infinity x then
    if PrimFloat.ltb x 0 then "-Infinity" else "Infinity"
  else if PrimFloat.ltb x 0 then "-" +:+ positiveToString (- x)%float
  else positiveToString x.

(** [x.toFixed(f)] *)
Definition toFixed (x : float) (f : nat) : string :=
  if PrimFloat.is_nan x || PrimFloat.is_infinity x then toString x
  else
    let neg := PrimFloat.ltb x 0 in
    let ax := if neg then (- x)%float else x in
    let body :=
      match toRatio ax with
      | None =>
          match f with
          | O => "0"
          | _ => "0." +:+ zeros f
          end
      | Some (p, q) =>
          if gePow10 p q 21 then toString ax
          else
            let n := (2 * p * 10 ^ Z.of_nat f + q) / (2 * q) in
            let m := ofDigits n in
            match f with
            | O => m
            | _ =>
                let m' := zeros (S f - String.length m) +:+ m in
                let k := String.length m' in
                substring 0 (k - f) m' +:+ "." +:+ substring (k - f) f m'
            end
      end in
    if neg then "-" +:+ body else body.

Definition isNaN (x : float) : bool := PrimFloat.is_nan x.

(** [Math.round(x)]: the nearest integer, a tie towards plus infinity. *)
Definition round (x : float) : float :=
  match Prim2SF x with
  | S754_finite sg m e =>
      if 0 <=? e then x
      else
        let p := if sg then Zneg m else Zpos m in
        let q := 2 ^ (- e) in
        let r := (2 * p + q) / (2 * q) in
        if (r =? 0) && sg then PrimFloat.neg_zero else ofZ r
  | _ => x
  end.

Definition max2 (hi x : float) : float :=
  if PrimFloat.is_nan hi then hi
  else if PrimFloat.is_nan x then x
  else if PrimFloat.ltb hi x then x
  else if PrimFloat.is_zero hi && PrimFloat.is_zero x && negb (PrimFloat.get_sign x) then x
  else hi.

Definition min2 (lo x : float) : float :=
  if PrimFloat.is_nan lo then lo
  else if PrimFloat.is_nan x then x
  else if PrimFloat.ltb x lo then x
  else if PrimFloat.is_zero lo && PrimFloat.is_zero x && PrimFloat.get_sign x then x
  else lo.

(** [Math.max(...xs)] and [Math.min(...xs)]; the engine's bound on the number
    of arguments of a call is not modelled. *)
Definition max (xs : list float) : float := fold_left max2 xs PrimFloat.neg_infinity.
Definition min (xs : list float) : float := fold_left min2 xs PrimFloat.infinity.

(** [xs.reduce((sum, val) => sum + val, 0)] *)
Definition sum (xs : list float) : float := fold_left PrimFloat.add xs PrimFloat.zero.

Definition digitValue (c : ascii) : option Z :=
  let n := nat_of_ascii c in
  if ((48 <=? n)%nat && (n <=? 57)%nat) then Some (Z.of_nat n - 48)
  else if ((97 <=? n)%nat && (n <=? 122)%nat) then Some (Z.of_nat n - 87)
  else if ((65 <=? n)%nat && (n <=? 90)%nat) then Some (Z.of_nat n - 55)
  else None.

(** The longest prefix of [s] made of digits of radix [r]: its value on top of
    [acc], the number of digits read on top of [len], and the rest of [s]. *)
Fixpoint readDigits (r : Z) (s : string) (acc : Z) (len : nat) : Z * nat * string :=
  match s with
  | String c s' =>
      match digitValue c with
      | Some d => if d <? r then readDigits r s' (acc * r + d) (S len) else (acc, len, s)
      | None => (acc, len, s)
      end
  | EmptyString => (acc, len, s)
  end.

Definition readSign (s : string) : bool * string :=
  match s with
  | String "-" s' => (true, s')
  | String "+" s' => (false, s')
  | _ => (false, s)
  end.

Definition signed (neg : bool) (x : float) : float := if neg then (- x)%float else x.

(** The value of an exponent part [e], [e+] or [e-] followed by digits, and 0
    where the text has none. *)
Definition readExponent (s : string) : Z :=
  match s with
  | String c s' =>
      if Ascii.eqb c "e" || Ascii.eqb c "E" then
        let '(neg, s'') := readSign s' in
        let '(v, len, _) := readDigits 10 s'' 0 0 in
        match len with
        | O => 0
        | _ => if neg then - v else v
        end
      else 0
  | EmptyString => 0
  end.

(** [parseFloat] of a string: the longest prefix that is a decimal literal. *)
Definition parseFloatString (input : string) : float :=
  let '(neg, s) := readSign (trimStart input) in
  if startsWith s "Infinity" then signed neg PrimFloat.infinity
  else
    let '(ip, ilen, rest) := readDigits 10 s 0 0 in
    let '(m, flen, rest') :=
      match rest with
      | String "." r =>
          let '(v, tlen, r') := readDigits 10 r ip ilen in
          (v, (tlen - ilen)%nat, r')
      | _ => (ip, O, rest)
      end in
    match (ilen + flen)%nat with
    | O => PrimFloat.nan
    | _ =>
        let '(p, q) := scale10 m (readExponent rest' - Z.of_nat flen) in
        signed neg (ofRatio p q)
    end.

(** [parseInt] of a string, called without a radix. *)
Definition parseIntString (input : string) : float :=
  let '(neg, s) := readSign (trimStart input) in
  let '(r, s') :=
    match s with
    | String "0" (String x t) =>
        if Ascii.eqb x "x" || Ascii.eqb x "X" then (16, t) else (10, s)
    | _ => (10, s)
    end in
  let '(v, len, _) := readDigits r s' 0 0 in
  match len with
  | O => PrimFloat.nan
  | _ => signed neg (ofRatio v 1)
  end.

End JsNumber.

(** ** Values, exceptions and tables *)

(** What a parsed cell can be (the CSV reader runs with [dynamicTyping]: an
    empty field is [null], a numeric field a number, [true] and [false]
    booleans), what reading past the end of an array gives, and the values
    stored in a metrics snapshot.  A field that is an ISO date, which the
    reader turns into a Date object, is not modelled. *)
Inductive value : Type :=
| VUndefined
| VNull
| VBool (b : bool)
| VNum (x : float)
| VStr (s : string)
| VStrings (l : list string).

Inductive exn : Type :=
| TypeError (msg : string)
| ReferenceError (msg : string).

Inductive result (A : Type) : Type :=
| Ok (a : A)
| Throw (e : exn).

Arguments Ok {A} a.
Arguments Throw {A} e.

Definition bind {A B : Type} (m : result A) (k : A -> result B) : result B :=
  match m with
  | Ok a => k a
  | Throw e => Throw e
  end.

Notation "'let*' x ':=' m 'in' k" := (bind m (fun x => k))
  (at level 10, x name, m at level 100, k at level 200).

(** [try { body } catch (error) { handler }] *)
Definition tryCatch {A : Type} (body : result A) (handler : exn -> result A) : result A :=
  match body with
  | Ok a => Ok a
  | Throw e => handler e
  end.

(** [l.map(f)] for an [f] that can throw: left to right, stopping at the first
    exception. *)
Fixpoint mapResult {A B : Type} (f : A -> result B) (l : list A) : result (list B) :=
  match l with
  | [] => Ok []
  | x :: l' =>
      let* y := f x in
      let* ys := mapResult f l' in
      Ok (y :: ys)
  end.

(** [l.some(f)] for an [f] that can throw. *)
Fixpoint someResult {A : Type} (f : A -> result bool) (l : list A) : result bool :=
  match l with
  | [] => Ok false
  | x :: l' =>
      let* b := f x in
      if b then Ok true else someResult f l'
  end.

(** The method call [v.toString()]: there is no such property on [undefined]
    and [null]. *)
Definition toStringMethod (v : value) : result string :=
  match v with
  | VUndefined => Throw (TypeError "Cannot read properties of undefined (reading 'toString')")
  | VNull => Throw (TypeError "Cannot read properties of null (reading 'toString')")
  | VBool b => Ok (if b then "true" else "false")
  | VNum x => Ok (JsNumber.toString x)
  | VStr s => Ok s
  | VStrings l => Ok (JsString.join "," l)
  end.

(** The abstract operation ToString, applied by [parseFloat] and [parseInt] to
    their argument. *)
Definition ToString (v : value) : string :=
  match v with
  | VUndefined => "undefined"
  | VNull => "null"
  | VBool b => if b then "true" else "false"
  | VNum x => JsNumber.toString x
  | VStr s => s
  | VStrings l => JsString.join "," l
  end.

Definition parseFloat (v : value) : float := JsNumber.parseFloatString (ToString v).
Definition parseInt (v : value) : float := JsNumber.parseIntString (ToString v).

(** [arr[i]] for a number [i] that is an integer: [undefined] out of range. *)
Definition arrayGet (arr : list value) (i : Z) : value :=
  if (i <? 0)%Z then VUndefined
  else match arr !! Z.to_nat i with
       | Some v => v
       | None => VUndefined
       end.

Fixpoint findIndexFrom {A : Type} (p : A -> bool) (l : list A) (i : Z) : Z :=
  match l with
  | [] => (-1)%Z
  | x :: l' => if p x then i else findIndexFrom p l' (i + 1)%Z
  end.

(** [l.findIndex(p)]: the first index whose element satisfies [p], or -1. *)
Definition findIndex {A : Type} (p : A -> bool) (l : list A) : Z := findIndexFrom p l 0%Z.

(** The object that [processCSVFile] resolves to, as far as the functions
    below read it.  [None] is a property that is absent. *)
Record Table : Type := {
  headers : option (list value);
  rows : option (list (list value))
}.

(** ** The column catalogue *)

Definition COLUMN_MAPPINGS : list (string * list string) := [
  ("channel", [
    "channel"; "platform"; "media"; "source"; "campaign_type"; "ad_platform";
    "advertising_channel"; "media_channel"; "placement"; "vendor"
  ]);
  ("ctr", [
    "ctr"; "click_through_rate"; "click-through-rate"; "clickthrough_rate";
    "click_rate"; "clicks_per_impression"; "click_percentage"; "ctr_%"; "ctr%";
    "click_thru_rate"; "engagement_rate"
  ]);
  ("cpm", [
    "cpm"; "cost_per_mille"; "cost_per_thousand"; "cost_per_1000";
    "cost_per_1k"; "cpt"; "cost_per_impression"; "impression_cost";
    "cost_per_m"; "cost_per_thousand_impressions"; "cpm_cost"
  ]);
  ("reach", [
    "reach"; "total_reach"; "unique_reach"; "audience_reach"; "people_reached";
    "unique_users"; "total_audience"; "impressions_reach"; "unduplicated_reach";
    "net_reach"; "coverage"
  ]);
  ("frequency", [
    "frequency"; "avg_frequency"; "average_frequency"; "freq"; "impression_frequency";
    "contact_frequency"; "exposure_frequency"; "frequency_avg"; "times_seen"
  ]);
  ("impressions", [
    "impressions"; "total_impressions"; "impression"; "views"; "total_views";
    "ad_impressions"; "served_impressions"; "delivered_impressions"
  ]);
  ("clicks", [
    "clicks"; "total_clicks"; "click"; "link_clicks"; "ad_clicks";
    "click_count"; "clickthroughs"
  ]);
  ("cost", [
    "cost"; "total_cost"; "spend"; "budget"; "investment"; "media_cost";
    "advertising_cost"; "campaign_cost"; "total_spend"; "amount_spent"
  ]);
  ("budget", [
    "budget"; "planned_budget"; "allocated_budget"; "budget_allocation";
    "investment"; "spend_target"; "budget_amount"
  ]);
  ("demographic", [
    "demographic"; "demo"; "age_group"; "target_demo"; "audience";
    "age_range"; "demo_group"; "target_audience"; "segment"
  ]);
  ("geography", [
    "geography"; "geo"; "location"; "region"; "market"; "area";
    "territory"; "geographic_area"; "locale"; "city"; "state"; "country"
  ]);
  ("date", [
    "date"; "time"; "period"; "week"; "month"; "quarter"; "campaign_date";
    "flight_date"; "run_date"; "start_date"; "end_date"
  ])
].

(** The canonical fields: the keys of the catalogue, in its order. *)
Definition catalogueFields : list string := map fst COLUMN_MAPPINGS.

Fixpoint property (key : string) (obj : list (string * list string)) : option (list string) :=
  match obj with
  | [] => None
  | (k, v) :: obj' => if String.eqb k key then Some v else property key obj'
  end.

(** [COLUMN_MAPPINGS[targetColumn] || []] *)
Definition possibleNamesOf (targetColumn : string) : list string :=
  match property targetColumn COLUMN_MAPPINGS with
  | Some names => names
  | None => []
  end.

(** ** The header matcher *)

Record ColumnMatch : Type := {
  found : bool;
  originalName : value;
  index : Z;
  mappedTo : string
}.

(** [h.toString().toLowerCase().trim().replace(/\s+/g, '_')] *)
Definition normalizeHeader (h : value) : result string :=
  let* s := toStringMethod h in
  Ok (JsString.replaceWhiteSpaceRuns "_" (JsString.trim (JsString.toLowerCase s))).

(** [possibleName.toLowerCase().trim()] *)
Definition normalizePossible (possibleName : string) : string :=
  JsString.trim (JsString.toLowerCase possibleName).

(** The predicate handed to [findIndex]. *)
Definition headerMatches (normalizedPossible header : string) : bool :=
  String.eqb header normalizedPossible
  || JsString.includes header normalizedPossible
  || JsString.includes normalizedPossible header
  || JsString.includes (JsString.removeChars JsString.isPercent header) normalizedPossible
  || JsString.includes (JsString.removeChars JsString.isDashOrUnderscore header)
       (JsString.removeChars JsString.isDashOrUnderscore normalizedPossible).

(** The [for ... of possibleNames] loop and the not-found result after it. *)
Fixpoint searchPossibleNames (headers : list value) (normalizedHeaders : list string)
  (targetColumn : string) (possibleNames : list string) : ColumnMatch :=
  match possibleNames with
  | [] => {| found := false; originalName := VNull; index := (-1)%Z; mappedTo := targetColumn |}
  | possibleName :: rest =>
      let normalizedPossible := normalizePossible possibleName in
      let matchIndex := findIndex (headerMatches normalizedPossible) normalizedHeaders in
      if negb (matchIndex =? -1)%Z then
        {| found := true;
           originalName := arrayGet headers matchIndex;
           index := matchIndex;
           mappedTo := targetColumn |}
      else searchPossibleNames headers normalizedHeaders targetColumn rest
  end.

Definition findColumnMatch (headers : list value) (targetColumn : string) : result ColumnMatch :=
  let* normalizedHeaders := mapResult normalizeHeader headers in
  let possibleNames := possibleNamesOf targetColumn in
  Ok (searchPossibleNames headers normalizedHeaders targetColumn possibleNames).

(** ** The data validator *)

(** The value of [foundMappings.channel || data.headers.some(...)]: the match
    object when there is one, and the boolean of [some] otherwise. *)
Inductive ChannelData : Type :=
| ChannelMatch (m : ColumnMatch)
| ChannelHeader (b : bool).

Record Verdict : Type := {
  isValid : bool;
  missingColumns : list string;
  foundColumns : option (list string);
  columnMappings : gmap string ColumnMatch;
  suggestions : string;
  hasChannelData : option ChannelData;
  recommendedColumns : list string;
  dataQuality : option string
}.

Definition idealColumns : list string :=
  ["channel"; "ctr"; "cpm"; "reach"; "frequency"; "impressions"; "clicks"; "cost"].

(** The three accumulators that the [forEach] callback updates. *)
Record Accumulators : Type := {
  accMappings : gmap string ColumnMatch;
  accMissing : list string;
  accFound : list string
}.

Definition noColumns : Accumulators :=
  {| accMappings := ∅; accMissing := []; accFound := [] |}.

(** [idealColumns.forEach(column => ...)] *)
Fixpoint forEachColumn (headers : list value) (columns : list string) (acc : Accumulators)
  : result Accumulators :=
  match columns with
  | [] => Ok acc
  | column :: rest =>
      let* match_ := findColumnMatch headers column in
      forEachColumn headers rest
        (if found match_ then
           {| accMappings := <[column := match_]> (accMappings acc);
              accMissing := accMissing acc;
              accFound := accFound acc ++ [column] |}
         else
           {| accMappings := accMappings acc;
              accMissing := accMissing acc ++ [column];
              accFound := accFound acc |})
  end.

(** The callback of [data.headers.some]. *)
Definition mentionsPlatformOrSource (h : value) : result bool :=
  let* s := toStringMethod h in
  if JsString.includes (JsString.toLowerCase s) "platform" then Ok true
  else
    let* s' := toStringMethod h in
    Ok (JsString.includes (JsString.toLowerCase s') "source").

Definition noHeadersVerdict : Verdict :=
  {| isValid := false;
     missingColumns := [];
     foundColumns := None;
     columnMappings := ∅;
     suggestions :=
       "No headers found in the CSV file. Please ensure the first row contains column headers.";
     hasChannelData := None;
     recommendedColumns := [];
     dataQuality := None |}.

Definition validateMediaData (data : Table) : result Verdict :=
  match headers data with
  | None | Some [] => Ok noHeadersVerdict
  | Some hs =>
      let* acc := forEachColumn hs idealColumns noColumns in
      let foundMappings := accMappings acc in
      let hasMinimumData := (2 <=? length (accFound acc))%nat in
      let* hasChannel :=
        match foundMappings !! "channel" with
        | Some m => Ok (ChannelMatch m)
        | None =>
            let* b := someResult mentionsPlatformOrSource hs in
            Ok (ChannelHeader b)
        end in
      let count := JsNumber.toString (JsNumber.ofNat (length (accFound acc))) in
      Ok {| isValid := hasMinimumData;
            missingColumns := accMissing acc;
            foundColumns := Some (accFound acc);
            columnMappings := foundMappings;
            suggestions :=
              if hasMinimumData then
                "Great! Found " +:+ count +:+ " relevant columns. The AI can analyze this data."
              else
                "Found " +:+ count +:+
                " relevant columns. For best results, include columns for channel, metrics like CTR/CPM, and performance data.";
            hasChannelData := Some hasChannel;
            recommendedColumns := accFound acc;
            dataQuality :=
              Some (if hasMinimumData
                    then (if (4 <=? length (accFound acc))%nat then "excellent" else "good")
                    else "limited") |}
  end.

(** ** The metrics aggregator *)

(** The callback [val => !isNaN(val) && val > 0] *)
Definition positiveNumber (val : float) : bool :=
  negb (JsNumber.isNaN val) && PrimFloat.ltb 0 val.

(** [.filter(val => !isNaN(val) && val > 0)] *)
Definition keepPositive (vals : list float) : list float :=
  List.filter positiveNumber vals.

(** [data.rows.map(row => parse(row[index])).filter(...)] *)
Definition columnValues (parse : value -> float) (rows : list (list value)) (index : Z)
  : list float :=
  keepPositive (map (fun row => parse (arrayGet row index)) rows).

Definition average (vals : list float) : float :=
  (JsNumber.sum vals / JsNumber.ofNat (length vals))%float.

Definition optionalStrings (o : option (list string)) : value :=
  match o with
  | Some l => VStrings l
  | None => VUndefined
  end.

Definition optionalString (o : option string) : value :=
  match o with
  | Some s => VStr s
  | None => VUndefined
  end.

(** The five blocks [if (mappings.field) { ... }], in the order of the source,
    each as a function from the [metrics] object before the block to the one
    after it.  A key is written at most once, in the order of the
    assignments. *)
Definition ctrMetrics (mappings : gmap string ColumnMatch) (rows : list (list value))
  (metrics : gmap string value) : gmap string value :=
  match mappings !! "ctr" with
  | Some m =>
      let ctrValues := columnValues parseFloat rows (index m) in
      if (0 <? length ctrValues)%nat then
        <["minCTR" := VStr (JsNumber.toFixed (JsNumber.min ctrValues) 2)]>
          (<["maxCTR" := VStr (JsNumber.toFixed (JsNumber.max ctrValues) 2)]>
             (<["avgCTR" := VStr (JsNumber.toFixed (average ctrValues) 2)]> metrics))
      else metrics
  | None => metrics
  end.

Definition cpmMetrics (mappings : gmap string ColumnMatch) (rows : list (list value))
  (metrics : gmap string value) : gmap string value :=
  match mappings !! "cpm" with
  | Some m =>
      let cpmValues := columnValues parseFloat rows (index m) in
      if (0 <? length cpmValues)%nat then
        <["minCPM" := VStr (JsNumber.toFixed (JsNumber.min cpmValues) 2)]>
          (<["maxCPM" := VStr (JsNumber.toFixed (JsNumber.max cpmValues) 2)]>
             (<["avgCPM" := VStr (JsNumber.toFixed (average cpmValues) 2)]> metrics))
      else metrics
  | None => metrics
  end.

Definition reachMetrics (mappings : gmap string ColumnMatch) (rows : list (list value))
  (metrics : gmap string value) : gmap string value :=
  match mappings !! "reach" with
  | Some m =>
      let reachValues := columnValues parseInt rows (index m) in
      if (0 <? length reachValues)%nat then
        let totalReach := JsNumber.sum reachValues in
        <["avgReach" :=
            VNum (JsNumber.round (totalReach / JsNumber.ofNat (length reachValues))%float)]>
          (<["totalReach" := VNum totalReach]> metrics)
      else metrics
  | None => metrics
  end.

Definition frequencyMetrics (mappings : gmap string ColumnMatch) (rows : list (list value))
  (metrics : gmap string value) : gmap string value :=
  match mappings !! "frequency" with
  | Some m =>
      let freqValues := columnValues parseFloat rows (index m) in
      if (0 <? length freqValues)%nat then
        <["avgFrequency" := VStr (JsNumber.toFixed (average freqValues) 1)]> metrics
      else metrics
  | None => metrics
  end.

Definition costMetrics (mappings : gmap string ColumnMatch) (rows : list (list value))
  (metrics : gmap string value) : gmap string value :=
  match mappings !! "cost" with
  | Some m =>
      let costValues := columnValues parseFloat rows (index m) in
      if (0 <? length costValues)%nat then
        let totalCost := JsNumber.sum costValues in
        <["avgCost" :=
            VStr (JsNumber.toFixed (totalCost / JsNumber.ofNat (length costValues))%float 2)]>
          (<["totalCost" := VNum totalCost]> metrics)
      else metrics
  | None => metrics
  end.

(** The block of the [try] statement.  Nothing in it throws on a table whose
    rows are arrays. *)
Definition calculateBasicMetrics_try (validation : Verdict) (rows : list (list value))
  : result (gmap string value) :=
  let mappings := columnMappings validation in
  let totalRows := JsNumber.ofNat (length rows) in
  let metrics : gmap string value :=
    <["dataQuality" := optionalString (dataQuality validation)]>
      (<["columnsFound" := optionalStrings (foundColumns validation)]>
         (<["totalRows" := VNum totalRows]>
            (<["totalCampaigns" := VNum totalRows]> ∅))) in
  Ok (costMetrics mappings rows
        (frequencyMetrics mappings rows
           (reachMetrics mappings rows
              (cpmMetrics mappings rows
                 (ctrMetrics mappings rows metrics))))).

(** The [catch] clause.  After logging the error (not modelled: it has no
    effect on the result), its object literal reads [totalRows], which is
    declared by [let] inside the block of the [try] and is not in scope here:
    evaluating it throws before any object is built. *)
Definition calculateBasicMetrics_catch (error : exn) : result (gmap string value) :=
  Throw (ReferenceError "totalRows is not defined").

(** [None] is the [null] returned for a table without rows. *)
Definition calculateBasicMetrics (data : Table) : result (option (gmap string value)) :=
  match rows data with
  | None | Some [] => Ok None
  | Some rs =>
      let* validation := validateMediaData data in
      let* metrics :=
        tryCatch (calculateBasicMetrics_try validation rs) calculateBasicMetrics_catch in
      Ok (Some metrics)
  end.

(** ** The payload preparer *)

Record Payload : Type := {
  originalHeaders : option (list value);
  mappedColumns : gmap string ColumnMatch;
  payloadFoundColumns : option (list string);
  payloadDataQuality : option string;
  sampleRows : list (list value);
  totalRows : nat;
  basicMetrics : option (gmap string value);
  payloadHasChannelData : option ChannelData
}.

(** [arr.slice(0, n)] *)
Definition slice0 {A : Type} (n : nat) (arr : list A) : list A := firstn n arr.

Definition prepareDataForAI (data : Table) : result Payload :=
  let* validation := validateMediaData data in
  let* rs :=
    match rows data with
    | Some rs => Ok rs
    | None => Throw (TypeError "Cannot read properties of undefined (reading 'slice')")
    end in
  let* metrics := calculateBasicMetrics data in
  Ok {| originalHeaders := headers data;
        mappedColumns := columnMappings validation;
        payloadFoundColumns := foundColumns validation;
        payloadDataQuality := dataQuality validation;
        sampleRows := slice0 10 rs;
        totalRows := length rs;
        basicMetrics := metrics;
        payloadHasChannelData := hasChannelData validation |}.

(** ** What the properties are stated with *)

(** A header cell on which [toString] can be called. *)
Definition printable (h : value) : bool :=
  match h with
  | VUndefined | VNull => false
  | _ => true
  end.

(** The normalized text of a printable header. *)
Definition normalizedText (h : value) : string :=
  JsString.replaceWhiteSpaceRuns "_" (JsString.trim (JsString.toLowerCase (ToString h))).

(** Some alias of [column] matches some of the normalized headers. *)
Definition aliasHits (normalizedHeaders : list string) (column : string) : bool :=
  existsb
    (fun possibleName =>
       existsb (headerMatches (normalizePossible possibleName)) normalizedHeaders)
    (possibleNamesOf column).

(** The headers match the canonical field [column]. *)
Definition matchable (hs : list value) (column : string) : bool :=
  match mapResult normalizeHeader hs with
  | Ok normalizedHeaders => aliasHits normalizedHeaders column
  | Throw _ => false
  end.

(** The number of canonical fields, among those the validator tries, that the
    headers match. *)
Definition matchedCount (hs : list value) : nat :=
  length (List.filter (matchable hs) idealColumns).

(** [(a, i)] is the first pair of an alias position and a header position, in
    the order of the two nested loops, whose alias matches the header. *)
Definition firstPair (possibleNames normalizedHeaders : list string) (a i : nat) : Prop :=
  exists possibleName header,
    possibleNames !! a = Some possibleName /\
    normalizedHeaders !! i = Some header /\
    headerMatches (normalizePossible possibleName) header = true /\
    (forall a' earlier header',
        (a' < a)%nat -> possibleNames !! a' = Some earlier -> In header' normalizedHeaders ->
        headerMatches (normalizePossible earlier) header' = false) /\
    (forall i' header',
        (i' < i)%nat -> normalizedHeaders !! i' = Some header' ->
        headerMatches (normalizePossible possibleName) header' = false).

(** A statistic of a field: left out of the snapshot when no value is left
    after the filter. *)
Definition statistic (vals : list float) (stat : list float -> value) : option value :=
  match vals with
  | [] => None
  | _ => Some (stat vals)
  end.

(** The snapshot holds under [key] a string made by [toFixed(digits)], or
    nothing. *)
Definition fixedPointOrAbsent (m : gmap string value) (key : string) (digits : nat) : Prop :=
  m !! key = None \/ exists x, m !! key = Some (VStr (JsNumber.toFixed x digits)).

(** The snapshot holds a number under [key], or nothing. *)
Definition numberOrAbsent (m : gmap string value) (key : string) : Prop :=
  m !! key = None \/ exists x, m !! key = Some (VNum x).

(** The verdict and the snapshot of a table for which the two functions return
    one (and a default where they do not). *)
Definition verdictOf (data : Table) : Verdict :=
  match validateMediaData data with
  | Ok v => v
  | Throw _ => noHeadersVerdict
  end.

Definition snapshotOf (data : Table) : gmap string value :=
  match calculateBasicMetrics data with
  | Ok (Some m) => m
  | _ => ∅
  end.

(** The tables of the scenarios.  A decimal literal stands for the double
    nearest to it, as it does in the source text of a JavaScript program. *)
#[local] Set Warnings "-inexact-float".

Definition scenarioTable : Table :=
  {| headers :=
       Some [VStr "Platform"; VStr "Click-Through Rate"; VStr "CPM ($)"; VStr "Total Reach"];
     rows := Some [[VStr "Facebook"; VNum 2.3; VNum 15.5; VNum 45000]] |}.

Definition numericTable : Table :=
  {| headers := Some [VStr "ctr"];
     rows := Some [[VNum 5]; [VNum (-3)]; [VStr "abc"]; [VNum 0]; [VNum 10]] |}.

Definition emptyHeadersTable : Table := {| headers := Some []; rows := Some [] |}.

Definition blankHeaderTable : Table :=
  {| headers := Some [VStr "Channel"; VNull; VStr "CTR"];
     rows := Some [[VStr "TV"; VNull; VNum 2.5]] |}.

Definition nonPositiveTable : Table :=
  {| headers := Some [VStr "ctr"];
     rows := Some [[VNum (-3)]; [VStr "abc"]; [VNum 0]; [VNull]; []] |}.

Definition budgetTable : Table :=
  {| headers := Some [VStr "Channel"; VStr "Budget"];
     rows := Some [[VStr "TV"; VNum 1000]] |}.

(** ** The data summary *)

Record SummaryDetails : Type := {
  detailsFoundColumns : option (list string);
  mappings : gmap string ColumnMatch;
  metrics : option (gmap string value);
  detailsSuggestions : string
}.

Record DataSummary : Type := {
  isReady : bool;
  quality : option string;
  summary : string;
  details : SummaryDetails
}.

(** [arr.length] for a property [arr] that can be absent. *)
Definition lengthProperty {A : Type} (arr : option (list A)) : result nat :=
  match arr with
  | Some l => Ok (length l)
  | None => Throw (TypeError "Cannot read properties of undefined (reading 'length')")
  end.

(** The properties of the object literal are evaluated in the order they are
    written: the two [length]s of the template are read after both calls
    have returned. *)
Definition getDataSummary (data : Table) : result DataSummary :=
  let* validation := validateMediaData data in
  let* metrics := calculateBasicMetrics data in
  let* foundCount := lengthProperty (foundColumns validation) in
  let* rowCount := lengthProperty (rows data) in
  Ok {| isReady := isValid validation;
        quality := dataQuality validation;
        summary :=
          "Found " +:+ JsNumber.toString (JsNumber.ofNat foundCount) +:+
          " relevant columns in " +:+ JsNumber.toString (JsNumber.ofNat rowCount) +:+
          " rows of data.";
        details :=
          {| detailsFoundColumns := foundColumns validation;
             mappings := columnMappings validation;
             metrics := metrics;
             detailsSuggestions := suggestions validation |} |}.

(** ** The object built from the parsed file *)

(** The [headers] and [rows] of the object that the [complete] callback of
    [processCSVFile] resolves the promise with, for the array [results.data]
    that the CSV reader hands over: one array of cells for each line that is
    not empty.  In [results.data[0] || []] an array is truthy, so the
    alternative stands for the [undefined] of an empty [results.data] only;
    in [results.data.slice(1) || []] the alternative is never taken. *)
Definition headerRow (resultsData : list (list value)) : list value :=
  match resultsData !! 0%nat with
  | Some row => row
  | None => []
  end.

Definition processedData (resultsData : list (list value)) : Table :=
  {| headers := Some (headerRow resultsData);
     rows := Some (skipn 1 resultsData) |}.

(** ** The basic revision of the validator and of the metrics *)

(** The file comes in a second revision, whose validator looks for four
    required column names as substrings of the lowercased headers and whose
    metrics are a fixed sample. *)
Module Basic.

Record Verdict : Type := {
  isValid : bool;
  missingColumns : list string;
  suggestions : string
}.

Definition requiredColumns : list string := ["channel"; "ctr"; "cpm"; "reach"].

(** [h.toString().toLowerCase()] *)
Definition lowerHeader (h : value) : result string :=
  let* s := toStringMethod h in
  Ok (JsString.toLowerCase s).

(** The callback [col => !headers.some(header => header.includes(col))] *)
Definition isMissing (headers : list string) (col : string) : bool :=
  negb (existsb (fun header => JsString.includes header col) headers).

Definition validateMediaData (data : Table) : result Verdict :=
  let* cells :=
    match headers data with
    | Some hs => Ok hs
    | None => Throw (TypeError "Cannot read properties of undefined (reading 'map')")
    end in
  let* headers := mapResult lowerHeader cells in
  let missingColumns := List.filter (isMissing headers) requiredColumns in
  Ok {| isValid := (length missingColumns =? 0)%nat;
        missingColumns := missingColumns;
        suggestions :=
          if (0 <? length missingColumns)%nat then
            "Missing columns: " +:+ JsString.join ", " missingColumns +:+
            ". Please ensure your CSV includes these media metrics."
          else "Data structure looks good!" |}.

(** [None] is the [null] returned for a table without rows. *)
Definition calculateBasicMetrics (data : Table) : option (gmap string value) :=
  match rows data with
  | None | Some [] => None
  | Some rs =>
      let totalRows := JsNumber.ofNat (length rs) in
      Some (<["avgFrequency" := VNum 3.2]>
              (<["totalReach" := VNum 150000]>
                 (<["avgCPM" := VNum 15.50]>
                    (<["avgCTR" := VNum 2.1]>
                       (<["totalCampaigns" := VNum totalRows]> ∅)))))
  end.

End Basic.

(** ** More of what the properties are stated with *)

(** A string without white space. *)
Fixpoint solid (s : string) : bool :=
  match s with
  | EmptyString => true
  | String c s' => negb (JsString.isWhiteSpace c) && solid s'
  end.

(** The lowercased text of a header, which the two [some] loops search. *)
Definition loweredText (h : value) : string := JsString.toLowerCase (ToString h).

(** The header row mentions [word]: some header contains it, whatever the
    case. *)
Definition mentions (hs : list value) (word : string) : bool :=
  existsb (fun h => JsString.includes (loweredText h) word) hs.

(** The row has no positive number at any column, for either parser. *)
Definition inert (row : list value) : Prop :=
  forall i : Z,
    positiveNumber (parseFloat (arrayGet row i)) = false /\
    positiveNumber (parseInt (arrayGet row i)) = false.

(** The keys that a snapshot can have. *)
Definition snapshotKeys : list string :=
  ["totalCampaigns"; "totalRows"; "columnsFound"; "dataQuality";
   "avgCTR"; "maxCTR"; "minCTR"; "avgCPM"; "maxCPM"; "minCPM";
   "totalReach"; "avgReach"; "avgFrequency"; "totalCost"; "avgCost"].

(** The verdict of the basic validator for a table for which it returns
    one (and a default where it does not). *)
Definition basicVerdictOf (data : Table) : Basic.Verdict :=
  match Basic.validateMediaData data with
  | Ok b => b
  | Throw _ =>
      {| Basic.isValid := false;
         Basic.missingColumns := [];
         Basic.suggestions := EmptyString |}
  end.

(** A table with the four columns that the basic validator requires. *)
Definition requiredTable : Table :=
  {| headers := Some [VStr "Channel"; VStr "CTR %"; VStr "Avg CPM"; VStr "Reach"];
     rows := Some [[VStr "TV"; VNum 1.8; VNum 25; VNum 120000]] |}.

(** The statistics keys of each numeric field, with the parser of its
    cells. *)
Definition statisticKeys : list (string * (value -> float) * list string) :=
  [("ctr", parseFloat, ["avgCTR"; "maxCTR"; "minCTR"]);
   ("cpm", parseFloat, ["avgCPM"; "maxCPM"; "minCPM"]);
   ("reach", parseInt, ["totalReach"; "avgReach"]);
   ("frequency", parseFloat, ["avgFrequency"]);
   ("cost", parseFloat, ["totalCost"; "avgCost"])].

(** A table with a row that has nothing to count: a blank cell and a text. *)
Definition blankRowTable : Table :=
  {| headers := Some [VStr "ctr"; VStr "channel"];
     rows := Some [[VNum 5; VStr "TV"]; [VNull; VStr "n/a"]; [VNum 10; VStr "Radio"]] |}.

(** ** The upload handler of the component *)

(** [s.endsWith(search)] *)
Definition endsWith (s search : string) : bool :=
  (String.length search <=? String.length s)%nat
  && String.eqb
       (substring (String.length s - String.length search) (String.length search) s)
       search.

(** What the handler reads of the chosen file. *)
Record File : Type := {
  type : string;
  name : string
}.

(** The three state variables of the component that the handler sets. *)
Record UploadState : Type := {
  uploadedData : option Table;
  validationResult : option Verdict;
  error : option string
}.

(** How the promise of [processCSVFile] settles: with the parsed lines, or
    with an error, of which the handler reads the [message]. *)
Inductive Settled : Type :=
| Resolved (resultsData : list (list value))
| Rejected (message : option string).

Definition exnMessage (e : exn) : string :=
  match e with
  | TypeError msg => msg
  | ReferenceError msg => msg
  end.

(** [message || alternative], for a message that can be absent or empty. *)
Definition messageOr (message : option string) (alternative : string) : string :=
  match message with
  | Some EmptyString | None => alternative
  | Some msg => msg
  end.

(** The [catch] clause: [setError(error.message || '...')], after the two
    [set...(null)] with which the handler begins. *)
Definition uploadFailed (message : option string) (st : UploadState) : UploadState :=
  {| uploadedData := uploadedData st;
     validationResult := None;
     error := Some (messageOr message "Error processing file. Please try again.") |}.

(** The state after [handleFileUpload] has run to its end for the file chosen
    ([None] when none was) and for the way the promise of [processCSVFile]
    settles. *)
Definition handleFileUpload (file : option File) (parsed : Settled) (st : UploadState)
  : UploadState :=
  match file with
  | None => st
  | Some file =>
      if negb (String.eqb (type file) "text/csv") && negb (endsWith (name file) ".csv") then
        uploadFailed (Some "Please upload a CSV file containing your media campaign data.") st
      else
        match parsed with
        | Rejected message => uploadFailed message st
        | Resolved resultsData =>
            let processedData := processedData resultsData in
            match validateMediaData processedData with
            | Throw e => uploadFailed (Some (exnMessage e)) st
            | Ok validation =>
                {| uploadedData := Some processedData;
                   validationResult := Some validation;
                   error :=
                     if negb (isValid validation) then Some (suggestions validation)
                     else None |}
            end
        end
  end.

(** A state of the component with an earlier upload in it, and a file. *)
Definition earlierUpload : UploadState :=
  {| uploadedData := Some scenarioTable;
     validationResult := Some (verdictOf scenarioTable);
     error := None |}.

Definition csvFile : File := {| type := "text/csv"; name := "campaigns.csv" |}.

(** * Properties *)

(** Closes an equation between closed terms by evaluating both sides. *)
Ltac evaluate :=
  lazymatch goal with
  | |- ?l = ?r => vm_cast_no_check (@eq_refl _ r)
  end.

(** ** The built-ins on known inputs *)

Example toString_shortest_digits :
  JsNumber.toString (0.1 + 0.2)%float = "0.30000000000000004" /\
  JsNumber.toString 2.3%float = "2.3" /\
  JsNumber.toString 45000%float = "45000" /\
  JsNumber.toString 1e21%float = "1e+21" /\
  JsNumber.toString 123456789012345680000%float = "123456789012345680000" /\
  JsNumber.toString 0.000001%float = "0.000001" /\
  JsNumber.toString 1e-7%float = "1e-7" /\
  JsNumber.toString 5e-324%float = "5e-324" /\
  JsNumber.toString (-7.25)%float = "-7.25".
Proof. repeat split; evaluate. Qed.

Example toFixed_rounds_the_exact_value :
  JsNumber.toFixed 2.3%float 2 = "2.30" /\
  JsNumber.toFixed 1.005%float 2 = "1.00" /\
  JsNumber.toFixed 3.25%float 1 = "3.3" /\
  JsNumber.toFixed 2.5%float 0 = "3" /\
  JsNumber.toFixed (-1.5)%float 0 = "-2" /\
  JsNumber.toFixed 0.004%float 2 = "0.00" /\
  JsNumber.toFixed 1e21%float 2 = "1e+21" /\
  JsNumber.toFixed PrimFloat.infinity 2 = "Infinity".
Proof. repeat split; evaluate. Qed.

Example parseFloat_longest_prefix :
  parseFloat (VStr "12.5abc") = 12.5%float /\
  parseFloat (VStr "  -3") = (-3)%float /\
  parseFloat (VStr ".5") = 0.5%float /\
  parseFloat (VStr "1e3") = 1000%float /\
  parseFloat (VStr "2.3") = 2.3%float /\
  parseFloat (VNum 2.3) = 2.3%float /\
  parseFloat (VStr "1.7976931348623159e308") = PrimFloat.infinity /\
  JsNumber.isNaN (parseFloat (VStr "abc")) = true /\
  JsNumber.isNaN (parseFloat (VStr "$12")) = true /\
  JsNumber.isNaN (parseFloat VNull) = true /\
  JsNumber.isNaN (parseFloat VUndefined) = true /\
  JsNumber.isNaN (parseFloat (VBool true)) = true.
Proof. repeat split; evaluate. Qed.

Example parseInt_integer_prefix :
  parseInt (VNum 45000) = 45000%float /\
  parseInt (VNum 2.7) = 2%float /\
  parseInt (VStr "45,000") = 45%float /\
  parseInt (VStr "0x1F") = 31%float /\
  parseInt (VNum 1e21) = 1%float /\
  JsNumber.isNaN (parseInt (VStr "n/a")) = true.
Proof. repeat split; evaluate. Qed.

Example round_ties_up :
  JsNumber.round 2.5%float = 3%float /\
  JsNumber.round (-2.5)%float = (-2)%float /\
  JsNumber.round 22500.5%float = 22501%float /\
  JsNumber.round 0.49999999999999994%float = 0%float.
Proof. repeat split; evaluate. Qed.

Example normalizeHeader_examples :
  normalizeHeader (VStr "  Click-Through   Rate ") = Ok "click-through_rate" /\
  normalizeHeader (VStr "CPM ($)") = Ok "cpm_($)" /\
  normalizeHeader (VNum 2024) = Ok "2024" /\
  normalizeHeader (VBool true) = Ok "true".
Proof. repeat split; evaluate. Qed.

(** ** Exceptions: where they can and cannot arise *)

Lemma Ok_inj {A : Type} (a b : A) : Ok a = Ok b -> a = b.
Proof. congruence. Qed.

Lemma toStringMethod_printable (h : value) :
  printable h = true -> toStringMethod h = Ok (ToString h).
Proof. destruct h; simpl; intros H; try discriminate H; reflexivity. Qed.

Lemma toStringMethod_not_printable (h : value) :
  printable h = false -> exists msg, toStringMethod h = Throw (TypeError msg).
Proof. destruct h; simpl; intros H; try discriminate H; eauto. Qed.

Lemma normalizeHeader_printable (h : value) :
  printable h = true -> normalizeHeader h = Ok (normalizedText h).
Proof.
  intros H. unfold normalizeHeader. rewrite (toStringMethod_printable h H). reflexivity.
Qed.

Lemma mapResult_normalizeHeader (hs : list value) :
  Forall (fun h => printable h = true) hs ->
  mapResult normalizeHeader hs = Ok (map normalizedText hs).
Proof.
  induction 1 as [|h hs Hh _ IH]; simpl.
  - reflexivity.
  - rewrite (normalizeHeader_printable h Hh). simpl. rewrite IH. reflexivity.
Qed.

Lemma mapResult_length {A B : Type} (f : A -> result B) (l : list A) (l' : list B) :
  mapResult f l = Ok l' -> length l' = length l.
Proof.
  revert l'. induction l as [|x l IH]; simpl; intros l' H.
  - injection H as <-. reflexivity.
  - destruct (f x) as [y|e]; simpl in H; [|discriminate H].
    destruct (mapResult f l) as [ys|e]; simpl in H; [|discriminate H].
    injection H as <-. simpl. f_equal. apply IH. reflexivity.
Qed.

Lemma mapResult_throws (hs : list value) :
  Exists (fun h => printable h = false) hs ->
  exists msg, mapResult normalizeHeader hs = Throw (TypeError msg).
Proof.
  induction hs as [|h hs IH]; intros H.
  - inversion H.
  - simpl. destruct (printable h) eqn:Hp.
    + rewrite (normalizeHeader_printable h Hp). simpl.
      destruct IH as [msg IH].
      { inversion H as [? ? Hx|]; subst; [congruence | assumption]. }
      rewrite IH. simpl. eauto.
    + unfold normalizeHeader.
      destruct (toStringMethod_not_printable h Hp) as [msg ->]. simpl. eauto.
Qed.

Lemma mentionsPlatformOrSource_printable (h : value) :
  printable h = true -> exists b, mentionsPlatformOrSource h = Ok b.
Proof.
  intros H. unfold mentionsPlatformOrSource.
  rewrite (toStringMethod_printable h H). simpl.
  destruct (JsString.includes _ "platform"); eauto.
Qed.

Lemma someResult_printable (hs : list value) :
  Forall (fun h => printable h = true) hs ->
  exists b, someResult mentionsPlatformOrSource hs = Ok b.
Proof.
  induction 1 as [|h hs Hh _ [b IH]]; simpl.
  - eauto.
  - destruct (mentionsPlatformOrSource_printable h Hh) as [[] ->]; simpl; eauto.
Qed.

(** ** [findIndex] *)

Lemma findIndexFrom_none {A : Type} (p : A -> bool) (l : list A) (i : Z) :
  (0 <= i)%Z ->
  findIndexFrom p l i = (-1)%Z <-> (forall x, In x l -> p x = false).
Proof.
  revert i. induction l as [|x l IH]; intros i Hi; simpl.
  - split; [intros _ x [] | reflexivity].
  - destruct (p x) eqn:Hx.
    + split.
      * intros ->. lia.
      * intros H. specialize (H x (or_introl eq_refl)). congruence.
    + rewrite (IH (i + 1)%Z) by lia. split.
      * intros H y [<-|Hy]; auto.
      * intros H y Hy. apply H. right. exact Hy.
Qed.

Lemma findIndexFrom_found {A : Type} (p : A -> bool) (l : list A) (i : Z) :
  (0 <= i)%Z ->
  findIndexFrom p l i <> (-1)%Z ->
  exists n x,
    findIndexFrom p l i = (i + Z.of_nat n)%Z /\
    l !! n = Some x /\ p x = true /\
    (forall n' y, (n' < n)%nat -> l !! n' = Some y -> p y = false).
Proof.
  revert i. induction l as [|x l IH]; intros i Hi; simpl.
  - intros H. contradiction H. reflexivity.
  - destruct (p x) eqn:Hx.
    + intros _. exists 0%nat, x. repeat split; [lia | assumption | intros; lia].
    + intros H. destruct (IH (i + 1)%Z ltac:(lia) H) as (n & y & Hn & Hl & Hy & Hmin).
      exists (S n), y. repeat split; [lia | assumption | assumption |].
      intros [|n'] z Hlt Hz; simpl in Hz.
      * injection Hz as <-. assumption.
      * apply (Hmin n' z); [lia | assumption].
Qed.

Lemma findIndex_none {A : Type} (p : A -> bool) (l : list A) :
  findIndex p l = (-1)%Z <-> (forall x, In x l -> p x = false).
Proof. apply findIndexFrom_none. lia. Qed.

Lemma findIndex_found {A : Type} (p : A -> bool) (l : list A) :
  findIndex p l <> (-1)%Z ->
  exists n x,
    findIndex p l = Z.of_nat n /\
    l !! n = Some x /\ p x = true /\
    (forall n' y, (n' < n)%nat -> l !! n' = Some y -> p y = false).
Proof.
  intros H. destruct (findIndexFrom_found p l 0%Z ltac:(lia) H) as (n & x & Hn & Hrest).
  exists n, x. split; [exact Hn | exact Hrest].
Qed.

Lemma findIndex_existsb {A : Type} (p : A -> bool) (l : list A) :
  negb (findIndex p l =? -1)%Z = existsb p l.
Proof.
  destruct (existsb p l) eqn:He.
  - apply existsb_exists in He as (x & Hin & Hx).
    destruct (Z.eqb_spec (findIndex p l) (-1)) as [Heq|]; [|reflexivity].
    rewrite findIndex_none in Heq. rewrite (Heq x Hin) in Hx. discriminate.
  - destruct (Z.eqb_spec (findIndex p l) (-1)) as [|Hne]; [reflexivity|].
    destruct (findIndex_found p l Hne) as (n & x & _ & Hl & Hx & _).
    assert (existsb p l = true) as Ht.
    { apply existsb_exists. exists x. split; [|assumption].
      apply list_elem_of_In. apply list_elem_of_lookup. eauto. }
    congruence.
Qed.

(** ** The header matcher *)

Lemma searchPossibleNames_found (hs : list value) (nh : list string) (target : string)
  (names : list string) :
  found (searchPossibleNames hs nh target names)
  = existsb (fun possibleName => existsb (headerMatches (normalizePossible possibleName)) nh)
      names.
Proof.
  induction names as [|name names IH]; simpl.
  - reflexivity.
  - rewrite findIndex_existsb.
    destruct (existsb (headerMatches (normalizePossible name)) nh); simpl; [reflexivity | exact IH].
Qed.

Lemma searchPossibleNames_mappedTo (hs : list value) (nh : list string) (target : string)
  (names : list string) :
  mappedTo (searchPossibleNames hs nh target names) = target.
Proof.
  induction names as [|name names IH]; simpl; [reflexivity|].
  destruct (negb _); [reflexivity | exact IH].
Qed.

(** The loop returns the first pair in alias-major order, or reports that
    there is none. *)
Lemma searchPossibleNames_first (hs : list value) (nh : list string) (target : string)
  (names : list string) :
  (exists a i,
      firstPair names nh a i /\
      searchPossibleNames hs nh target names
      = {| found := true;
           originalName := arrayGet hs (Z.of_nat i);
           index := Z.of_nat i;
           mappedTo := target |})
  \/
  ((forall possibleName header,
       In possibleName names -> In header nh ->
       headerMatches (normalizePossible possibleName) header = false) /\
   searchPossibleNames hs nh target names
   = {| found := false; originalName := VNull; index := (-1)%Z; mappedTo := target |}).
Proof.
  induction names as [|name names IH]; simpl.
  - right. split; [intros ? ? [] | reflexivity].
  - destruct (Z.eqb_spec (findIndex (headerMatches (normalizePossible name)) nh) (-1))
      as [Hnone|Hsome]; simpl.
    + rewrite findIndex_none in Hnone.
      destruct IH as [(a & i & (pn & h & Ha & Hi & Hm & Hearlier & Hleft) & Heq)|[Hall Heq]].
      * left. exists (S a), i. split; [|exact Heq].
        exists pn, h. repeat split; try assumption.
        intros [|a'] earlier h' Hlt Hlook Hin; simpl in Hlook.
        -- injection Hlook as <-. apply Hnone. exact Hin.
        -- apply (Hearlier a' earlier h'); [lia | assumption | assumption].
      * right. split; [|exact Heq].
        intros pn h [<-|Hpn] Hh; [apply Hnone; exact Hh | apply Hall; assumption].
    + left. destruct (findIndex_found _ _ Hsome) as (i & h & Hidx & Hi & Hm & Hleft).
      exists 0%nat, i. rewrite Hidx. split; [|reflexivity].
      exists name, h. repeat split; try assumption.
      intros a' ? ? Hlt. lia.
Qed.

(** C3. [findColumnMatch] tries the aliases of the field in catalogue order
    and, for each alias, the headers in their order; it returns the header of
    the first pair that satisfies the matching predicate, and reports no match
    exactly when no pair does.  For the headers impression_cost, cpm_cost and
    the field cpm the match is cpm_cost at index 1, found by the first alias
    (cpm), although the header at index 0 matches the later alias
    impression_cost. *)
Theorem findColumnMatch_alias_order :
  (forall (hs : list value) (targetColumn : string) (normalizedHeaders : list string),
      mapResult normalizeHeader hs = Ok normalizedHeaders ->
      exists m,
        findColumnMatch hs targetColumn = Ok m /\
        ((exists a i,
             firstPair (possibleNamesOf targetColumn) normalizedHeaders a i /\
             m = {| found := true;
                    originalName := arrayGet hs (Z.of_nat i);
                    index := Z.of_nat i;
                    mappedTo := targetColumn |})
         \/
         ((forall possibleName header,
              In possibleName (possibleNamesOf targetColumn) -> In header normalizedHeaders ->
              headerMatches (normalizePossible possibleName) header = false) /\
          m = {| found := false; originalName := VNull; index := (-1)%Z;
                 mappedTo := targetColumn |})))
  /\
  (findColumnMatch [VStr "impression_cost"; VStr "cpm_cost"] "cpm"
   = Ok {| found := true; originalName := VStr "cpm_cost"; index := 1%Z; mappedTo := "cpm" |}
   /\ firstPair (possibleNamesOf "cpm") ["impression_cost"; "cpm_cost"] 0 1
   /\ possibleNamesOf "cpm" !! 0%nat = Some "cpm"
   /\ possibleNamesOf "cpm" !! 7%nat = Some "impression_cost"
   /\ headerMatches (normalizePossible "impression_cost") "impression_cost" = true
   /\ headerMatches (normalizePossible "cpm") "impression_cost" = false).
Proof.
  split.
  - intros hs target nh Hnh. unfold findColumnMatch. rewrite Hnh. simpl.
    eexists. split; [reflexivity|]. apply searchPossibleNames_first.
  - split; [reflexivity|]. split; [|repeat split; reflexivity].
    exists "cpm", "cpm_cost". repeat split; try reflexivity.
    + intros a' ? ? Hlt. lia.
    + intros [|[|i']] h' Hlt Hl; simpl in Hl; try lia.
      injection Hl as <-. reflexivity.
Qed.

Lemma findColumnMatch_alias_order_witness :
  exists m,
    findColumnMatch [VStr "Total Spend"; VStr "Budget"] "cost" = Ok m /\
    ((exists a i,
         firstPair (possibleNamesOf "cost") ["total_spend"; "budget"] a i /\
         m = {| found := true;
                originalName := arrayGet [VStr "Total Spend"; VStr "Budget"] (Z.of_nat i);
                index := Z.of_nat i;
                mappedTo := "cost" |})
     \/
     ((forall possibleName header,
          In possibleName (possibleNamesOf "cost") -> In header ["total_spend"; "budget"] ->
          headerMatches (normalizePossible possibleName) header = false) /\
      m = {| found := false; originalName := VNull; index := (-1)%Z; mappedTo := "cost" |})).
Proof.
  apply (proj1 findColumnMatch_alias_order [VStr "Total Spend"; VStr "Budget"] "cost").
  reflexivity.
Defined.

(** ** The data validator *)

(** While the header row has no blank cell, nothing throws and the matcher
    is the pure search over the normalized texts of the headers. *)
Section PrintableHeaders.

Variable hs : list value.
Hypothesis Hprintable : Forall (fun h => printable h = true) hs.

Lemma findColumnMatch_printable (target : string) :
  findColumnMatch hs target
  = Ok (searchPossibleNames hs (map normalizedText hs) target (possibleNamesOf target)).
Proof.
  unfold findColumnMatch. rewrite (mapResult_normalizeHeader hs Hprintable). reflexivity.
Qed.

Lemma matchable_printable (column : string) :
  matchable hs column = aliasHits (map normalizedText hs) column.
Proof. unfold matchable. rewrite (mapResult_normalizeHeader hs Hprintable). reflexivity. Qed.

Lemma findColumnMatch_found (column : string) :
  exists m, findColumnMatch hs column = Ok m /\ found m = matchable hs column
            /\ mappedTo m = column.
Proof.
  rewrite findColumnMatch_printable.
  eexists. split; [reflexivity|]. split.
  - rewrite searchPossibleNames_found, matchable_printable. reflexivity.
  - apply searchPossibleNames_mappedTo.
Qed.

(** What the [forEach] loop adds to its three accumulators. *)
Lemma forEachColumn_printable (columns : list string) (acc : Accumulators) :
  exists acc',
    forEachColumn hs columns acc = Ok acc' /\
    accFound acc' = accFound acc ++ List.filter (matchable hs) columns /\
    accMissing acc' = accMissing acc ++ List.filter (fun c => negb (matchable hs c)) columns /\
    (forall c,
        accMappings acc' !! c
        = if existsb (String.eqb c) columns && matchable hs c
          then Some (searchPossibleNames hs (map normalizedText hs) c (possibleNamesOf c))
          else accMappings acc !! c).
Proof.
  revert acc. induction columns as [|column rest IH]; intros acc; simpl.
  - exists acc. rewrite !app_nil_r. repeat split; reflexivity.
  - rewrite (findColumnMatch_printable column). simpl.
    rewrite searchPossibleNames_found. fold (aliasHits (map normalizedText hs) column).
    rewrite <- (matchable_printable column).
    destruct (matchable hs column) eqn:Hm; simpl.
    + destruct (IH {| accMappings :=
                        <[column := searchPossibleNames hs (map normalizedText hs) column
                                      (possibleNamesOf column)]> (accMappings acc);
                      accMissing := accMissing acc;
                      accFound := accFound acc ++ [column] |})
        as (acc' & Heq & Hf & Hmiss & Hmap).
      exists acc'. simpl in *. split; [exact Heq|]. split; [|split].
      * rewrite Hf, <- app_assoc. reflexivity.
      * exact Hmiss.
      * intros c. rewrite Hmap.
        destruct (String.eqb_spec c column) as [->|Hne]; simpl.
        -- rewrite Hm. destruct (existsb _ rest); simpl; [reflexivity|].
           apply lookup_insert_eq.
        -- destruct (existsb (String.eqb c) rest && matchable hs c); [reflexivity|].
           apply lookup_insert_ne. congruence.
    + destruct (IH {| accMappings := accMappings acc;
                      accMissing := accMissing acc ++ [column];
                      accFound := accFound acc |})
        as (acc' & Heq & Hf & Hmiss & Hmap).
      exists acc'. simpl in *. split; [exact Heq|]. split; [|split].
      * exact Hf.
      * rewrite Hmiss, <- app_assoc. reflexivity.
      * intros c. rewrite Hmap.
        destruct (String.eqb_spec c column) as [->|Hne]; simpl; [|reflexivity].
        rewrite Hm. rewrite andb_false_r. reflexivity.
Qed.

End PrintableHeaders.

(** The verdict for a table whose header row is not empty and has no blank
    cell. *)
Lemma validateMediaData_headers (data : Table) (hs : list value) :
  headers data = Some hs -> hs <> [] ->
  Forall (fun h => printable h = true) hs ->
  exists v,
    validateMediaData data = Ok v /\
    foundColumns v = Some (List.filter (matchable hs) idealColumns) /\
    recommendedColumns v = List.filter (matchable hs) idealColumns /\
    missingColumns v = List.filter (fun c => negb (matchable hs c)) idealColumns /\
    isValid v = (2 <=? matchedCount hs)%nat /\
    dataQuality v
    = Some (if (2 <=? matchedCount hs)%nat
            then (if (4 <=? matchedCount hs)%nat then "excellent" else "good")
            else "limited") /\
    (forall c,
        columnMappings v !! c
        = if existsb (String.eqb c) idealColumns && matchable hs c
          then Some (searchPossibleNames hs (map normalizedText hs) c (possibleNamesOf c))
          else None).
Proof.
  intros Hh Hne Hp. unfold validateMediaData. rewrite Hh.
  destruct hs as [|h hs']; [contradiction Hne; reflexivity|].
  destruct (forEachColumn_printable (h :: hs') Hp idealColumns noColumns)
    as (acc & -> & Hf & Hmiss & Hmap).
  cbn [bind]. simpl accFound in Hf. simpl accMissing in Hmiss. simpl accMappings in Hmap.
  assert (exists cd,
             match accMappings acc !! "channel" with
             | Some m => Ok (ChannelMatch m)
             | None =>
                 let* b := someResult mentionsPlatformOrSource (h :: hs') in
                 Ok (ChannelHeader b)
             end = Ok cd) as [cd ->].
  { destruct (accMappings acc !! "channel"); [eauto|].
    destruct (someResult_printable (h :: hs') Hp) as [b ->]. simpl. eauto. }
  cbn [bind]. eexists. split; [reflexivity|]. cbn [foundColumns recommendedColumns
    missingColumns isValid dataQuality columnMappings].
  unfold matchedCount. rewrite Hf, Hmiss. repeat split.
  intros c. rewrite Hmap. rewrite lookup_empty. reflexivity.
Qed.

(** Any table whose header cells all have a [toString] gets a verdict. *)
Lemma validateMediaData_returns (data : Table) :
  match headers data with
  | Some hs => Forall (fun h => printable h = true) hs
  | None => True
  end ->
  exists v, validateMediaData data = Ok v.
Proof.
  destruct (headers data) as [hs|] eqn:Hh; intros Hp.
  - destruct hs as [|h hs'].
    + unfold validateMediaData. rewrite Hh. eauto.
    + destruct (validateMediaData_headers data (h :: hs') Hh ltac:(discriminate) Hp)
        as (v & Hv & _). eauto.
  - unfold validateMediaData. rewrite Hh. eauto.
Qed.

Lemma forEachColumn_throws (hs : list value) (column : string) (rest : list string)
  (acc : Accumulators) (e : exn) :
  mapResult normalizeHeader hs = Throw e ->
  forEachColumn hs (column :: rest) acc = Throw e.
Proof.
  intros H. cbn [forEachColumn]. unfold findColumnMatch. rewrite H. reflexivity.
Qed.

(** A blank header cell makes the validator throw, on the first column it
    tries. *)
Lemma validateMediaData_blank_header (data : Table) (hs : list value) :
  headers data = Some hs ->
  Exists (fun h => printable h = false) hs ->
  exists msg, validateMediaData data = Throw (TypeError msg).
Proof.
  intros Hh Hblank. destruct (mapResult_throws hs Hblank) as [msg Hmsg].
  exists msg. unfold validateMediaData. rewrite Hh.
  destruct hs as [|h hs']; [inversion Hblank|].
  unfold idealColumns. rewrite (forEachColumn_throws _ _ _ _ _ Hmsg). reflexivity.
Qed.

(** X1.  The validator does not throw on a table whose header cells all have
    a [toString] (none is [null] or [undefined]): it returns a verdict. *)
Theorem validateMediaData_total_on_printable_headers (data : Table) :
  match headers data with
  | Some hs => Forall (fun h => printable h = true) hs
  | None => True
  end ->
  exists v, validateMediaData data = Ok v.
Proof. exact (validateMediaData_returns data). Qed.

Lemma validateMediaData_total_on_printable_headers_witness :
  exists v, validateMediaData budgetTable = Ok v.
Proof.
  apply (validateMediaData_total_on_printable_headers budgetTable). simpl.
  repeat constructor.
Defined.

(** X2.  On a table whose header row has a blank cell ([null], as the CSV
    reader delivers an empty field) the validator throws a TypeError. *)
Theorem validateMediaData_throws_on_blank_header (data : Table) (hs : list value) :
  headers data = Some hs ->
  Exists (fun h => printable h = false) hs ->
  exists msg, validateMediaData data = Throw (TypeError msg).
Proof. exact (validateMediaData_blank_header data hs). Qed.

Lemma validateMediaData_throws_on_blank_header_witness :
  exists msg, validateMediaData blankHeaderTable = Throw (TypeError msg).
Proof.
  apply (validateMediaData_throws_on_blank_header blankHeaderTable
           [VStr "Channel"; VNull; VStr "CTR"]).
  - reflexivity.
  - apply Exists_cons_tl. apply Exists_cons_hd. reflexivity.
Defined.

Lemma filter_complement_Permutation {A : Type} (p : A -> bool) (l : list A) :
  Permutation (List.filter p l ++ List.filter (fun x => negb (p x)) l) l.
Proof.
  induction l as [|x l IH]; simpl; [constructor|].
  destruct (p x); simpl.
  - constructor. exact IH.
  - symmetry. apply Permutation_cons_app. symmetry. exact IH.
Qed.

(** C1, as amended.  For a table whose header row is not empty (and has no
    blank cell), with [k] the number of canonical fields among those the
    validator tries that the headers match: [isValid] is true iff [k >= 2],
    and [dataQuality] is excellent iff [k >= 4], good iff [2 <= k <= 3],
    limited iff [k < 2].  For an empty header row the verdict is invalid and
    has no [dataQuality] at all. *)
Theorem validateMediaData_threshold (data : Table) (hs : list value) :
  headers data = Some hs ->
  Forall (fun h => printable h = true) hs ->
  exists v,
    validateMediaData data = Ok v /\
    (hs <> [] ->
     let k := matchedCount hs in
     (isValid v = true <-> 2 <= k) /\
     (dataQuality v = Some "excellent" <-> 4 <= k) /\
     (dataQuality v = Some "good" <-> 2 <= k <= 3) /\
     (dataQuality v = Some "limited" <-> k < 2)) /\
    (hs = [] -> isValid v = false /\ dataQuality v = None).
Proof.
  intros Hh Hp. destruct hs as [|h hs'].
  - exists noHeadersVerdict. unfold validateMediaData. rewrite Hh.
    split; [reflexivity|]. split; [intros H; contradiction H; reflexivity|].
    intros _. split; reflexivity.
  - destruct (validateMediaData_headers data (h :: hs') Hh ltac:(discriminate) Hp)
      as (v & Hv & _ & _ & _ & Hvalid & Hq & _).
    exists v. split; [exact Hv|]. split; [|discriminate].
    intros _ k. subst k. rewrite Hvalid, Hq.
    destruct (Nat.leb_spec 2 (matchedCount (h :: hs'))) as [H2|H2];
      destruct (Nat.leb_spec 4 (matchedCount (h :: hs'))) as [H4|H4];
      repeat match goal with
        | |- _ /\ _ => split
        | |- _ <-> _ => split
        end;
      intros H; try discriminate H; try reflexivity; try lia.
Qed.

Lemma validateMediaData_threshold_witness :
  exists v,
    validateMediaData scenarioTable = Ok v /\
    ([VStr "Platform"; VStr "Click-Through Rate"; VStr "CPM ($)"; VStr "Total Reach"] <> [] ->
     let k :=
       matchedCount
         [VStr "Platform"; VStr "Click-Through Rate"; VStr "CPM ($)"; VStr "Total Reach"] in
     (isValid v = true <-> 2 <= k) /\
     (dataQuality v = Some "excellent" <-> 4 <= k) /\
     (dataQuality v = Some "good" <-> 2 <= k <= 3) /\
     (dataQuality v = Some "limited" <-> k < 2)) /\
    ([VStr "Platform"; VStr "Click-Through Rate"; VStr "CPM ($)"; VStr "Total Reach"] = [] ->
     isValid v = false /\ dataQuality v = None).
Proof.
  apply (validateMediaData_threshold scenarioTable).
  - reflexivity.
  - repeat constructor.
Defined.

(** C1 fails as stated at the table with an empty header row: no canonical
    field is matched, so [k = 0 < 2], but the verdict carries no
    [dataQuality], so it is not limited. *)
Lemma validateMediaData_threshold_empty_headers :
  headers emptyHeadersTable = Some [] /\
  matchedCount [] = 0 /\
  validateMediaData emptyHeadersTable = Ok noHeadersVerdict /\
  dataQuality noHeadersVerdict = None /\
  ~ (dataQuality noHeadersVerdict = Some "limited" <-> matchedCount [] < 2).
Proof.
  repeat split; try reflexivity.
  intros [_ H]. assert (matchedCount [] < 2) as Hk by (vm_compute; lia).
  specialize (H Hk). discriminate H.
Qed.

(** C2, as amended.  For a table whose header row is not empty (and has no
    blank cell), [foundColumns] and [missingColumns] partition the eight
    columns of [idealColumns], a column being found exactly when the headers
    match it; the other four fields of the catalogue (budget, demographic,
    geography, date) are in neither list. *)
Theorem validateMediaData_partition (data : Table) (hs : list value) :
  headers data = Some hs -> hs <> [] ->
  Forall (fun h => printable h = true) hs ->
  exists v f,
    validateMediaData data = Ok v /\
    foundColumns v = Some f /\
    Permutation (f ++ missingColumns v) idealColumns /\
    NoDup (f ++ missingColumns v) /\
    (forall c, In c f <-> In c idealColumns /\ matchable hs c = true) /\
    (forall c, In c (missingColumns v) <-> In c idealColumns /\ matchable hs c = false) /\
    (forall c, is_Some (columnMappings v !! c) <-> In c f) /\
    (forall c, In c ["budget"; "demographic"; "geography"; "date"] ->
               In c catalogueFields /\ ~ In c f /\ ~ In c (missingColumns v)).
Proof.
  intros Hh Hne Hp.
  destruct (validateMediaData_headers data hs Hh Hne Hp)
    as (v & Hv & Hf & _ & Hmiss & _ & _ & Hmap).
  exists v, (List.filter (matchable hs) idealColumns).
  split; [exact Hv|]. split; [exact Hf|]. rewrite Hmiss.
  assert (Permutation
            (List.filter (matchable hs) idealColumns
             ++ List.filter (fun c => negb (matchable hs c)) idealColumns) idealColumns)
    as Hperm by apply filter_complement_Permutation.
  assert (NoDup idealColumns) as Hnd.
  { unfold idealColumns. compute_done. }
  split; [exact Hperm|]. split; [rewrite Hperm; exact Hnd|].
  split; [intros c; apply filter_In|].
  split.
  { intros c. rewrite filter_In. rewrite negb_true_iff. reflexivity. }
  split.
  { intros c. rewrite Hmap, filter_In.
    destruct (existsb (String.eqb c) idealColumns) eqn:He; simpl.
    - apply existsb_exists in He as (c' & Hin & Heq). apply String.eqb_eq in Heq. subst c'.
      destruct (matchable hs c); split.
      + intros _. split; [assumption | reflexivity].
      + intros _. eexists. reflexivity.
      + intros [? H]. discriminate H.
      + intros [_ H]. discriminate H.
    - split.
      + intros [? H]. discriminate H.
      + intros [Hin _]. exfalso.
        assert (existsb (String.eqb c) idealColumns = true) as Ht.
        { apply existsb_exists. exists c. split; [assumption | apply String.eqb_refl]. }
        congruence. }
  intros c Hc.
  assert (~ In c idealColumns) as Hout.
  { simpl in Hc. intuition (subst; simpl in *; intuition discriminate). }
  split.
  { simpl in Hc. unfold catalogueFields. simpl. intuition. }
  rewrite !filter_In. tauto.
Qed.

Lemma validateMediaData_partition_witness :
  exists v f,
    validateMediaData budgetTable = Ok v /\
    foundColumns v = Some f /\
    Permutation (f ++ missingColumns v) idealColumns /\
    NoDup (f ++ missingColumns v) /\
    (forall c, In c f <->
               In c idealColumns /\ matchable [VStr "Channel"; VStr "Budget"] c = true) /\
    (forall c, In c (missingColumns v) <->
               In c idealColumns /\ matchable [VStr "Channel"; VStr "Budget"] c = false) /\
    (forall c, is_Some (columnMappings v !! c) <-> In c f) /\
    (forall c, In c ["budget"; "demographic"; "geography"; "date"] ->
               In c catalogueFields /\ ~ In c f /\ ~ In c (missingColumns v)).
Proof.
  apply (validateMediaData_partition budgetTable).
  - reflexivity.
  - discriminate.
  - repeat constructor.
Defined.

(** C2 fails as stated at the table with the headers Channel and Budget: the
    field budget has an alias list in the catalogue and is in neither
    [foundColumns] nor [missingColumns]. *)
Lemma validateMediaData_partition_budget :
  exists v,
    validateMediaData budgetTable = Ok v /\
    is_Some (property "budget" COLUMN_MAPPINGS) /\
    foundColumns v = Some ["channel"; "cost"] /\
    missingColumns v = ["ctr"; "cpm"; "reach"; "frequency"; "impressions"; "clicks"] /\
    ~ In "budget" ["channel"; "cost"] /\
    ~ In "budget" (missingColumns v).
Proof.
  eexists. split; [vm_compute; reflexivity|]. simpl.
  split; [eexists; reflexivity|]. split; [reflexivity|]. split; [reflexivity|].
  split; intros H; simpl in H; intuition discriminate.
Qed.

(** Headers that no alias matches (foo, bar): an invalid verdict of
    limited quality that finds nothing. *)
Example validateMediaData_foo_bar :
  exists v,
    validateMediaData {| headers := Some [VStr "foo"; VStr "bar"]; rows := Some [] |} = Ok v /\
    isValid v = false /\
    foundColumns v = Some [] /\
    missingColumns v = idealColumns /\
    dataQuality v = Some "limited".
Proof.
  exists (verdictOf {| headers := Some [VStr "foo"; VStr "bar"]; rows := Some [] |}).
  repeat split; evaluate.
Qed.

(** C8.  For a table whose [headers] are absent or empty, whatever its rows,
    [validateMediaData] returns a verdict: it is invalid, it has no column
    mappings, and its [suggestions] say that no headers were found. *)
Theorem validateMediaData_no_headers (rs : option (list (list value))) :
  let verdictOf hs := validateMediaData {| headers := hs; rows := rs |} in
  exists v,
    verdictOf None = Ok v /\
    verdictOf (Some []) = Ok v /\
    isValid v = false /\
    columnMappings v = ∅ /\
    missingColumns v = [] /\
    recommendedColumns v = [] /\
    suggestions v
    = "No headers found in the CSV file. Please ensure the first row contains column headers.".
Proof.
  exists noHeadersVerdict. repeat split; reflexivity.
Qed.

(** ** The metrics aggregator *)

Lemma columnValues_positive (parse : value -> float) (rs : list (list value)) (idx : Z) :
  Forall (fun val => positiveNumber val = true) (columnValues parse rs idx).
Proof.
  unfold columnValues, keepPositive. apply Forall_forall. intros x Hx.
  apply list_elem_of_In in Hx. apply filter_In in Hx as [_ Hx]. exact Hx.
Qed.

Lemma columnValues_app (parse : value -> float) (rs1 rs2 : list (list value)) (idx : Z) :
  columnValues parse (rs1 ++ rs2) idx = columnValues parse rs1 idx ++ columnValues parse rs2 idx.
Proof. unfold columnValues, keepPositive. rewrite map_app. apply List.filter_app. Qed.

(** A row whose cell is not a positive number leaves the values of the column
    as they are; any other row contributes the number its cell parses to. *)
Lemma columnValues_cons (parse : value -> float) (row : list value) (rs : list (list value))
  (idx : Z) :
  columnValues parse (row :: rs) idx
  = if positiveNumber (parse (arrayGet row idx))
    then parse (arrayGet row idx) :: columnValues parse rs idx
    else columnValues parse rs idx.
Proof.
  unfold columnValues, keepPositive. simpl.
  destruct (positiveNumber _); reflexivity.
Qed.

Ltac unfold_field_metrics :=
  unfold ctrMetrics, cpmMetrics, reachMetrics, frequencyMetrics, costMetrics, statistic;
  repeat match goal with
    | |- context [match ?mp !! ?field with _ => _ end] => destruct (mp !! field)
    | |- context [columnValues ?parse ?rs ?idx] => destruct (columnValues parse rs idx)
    end;
  simpl.

Ltac other_key := rewrite ?lookup_insert_ne by congruence; try reflexivity.

Lemma ctrMetrics_frame mp rs m (k : string) :
  k <> "avgCTR" -> k <> "maxCTR" -> k <> "minCTR" -> ctrMetrics mp rs m !! k = m !! k.
Proof. intros. unfold_field_metrics; other_key. Qed.

Lemma cpmMetrics_frame mp rs m (k : string) :
  k <> "avgCPM" -> k <> "maxCPM" -> k <> "minCPM" -> cpmMetrics mp rs m !! k = m !! k.
Proof. intros. unfold_field_metrics; other_key. Qed.

Lemma reachMetrics_frame mp rs m (k : string) :
  k <> "totalReach" -> k <> "avgReach" -> reachMetrics mp rs m !! k = m !! k.
Proof. intros. unfold_field_metrics; other_key. Qed.

Lemma frequencyMetrics_frame mp rs m (k : string) :
  k <> "avgFrequency" -> frequencyMetrics mp rs m !! k = m !! k.
Proof. intros. unfold_field_metrics; other_key. Qed.

Lemma costMetrics_frame mp rs m (k : string) :
  k <> "totalCost" -> k <> "avgCost" -> costMetrics mp rs m !! k = m !! k.
Proof. intros. unfold_field_metrics; other_key. Qed.

Ltac frame :=
  rewrite ?costMetrics_frame, ?frequencyMetrics_frame, ?reachMetrics_frame,
    ?cpmMetrics_frame, ?ctrMetrics_frame by discriminate.

Ltac own_key Hm :=
  rewrite Hm; destruct (columnValues _ _ _); simpl;
  rewrite ?lookup_insert_eq; rewrite ?lookup_insert_ne by discriminate;
  rewrite ?lookup_insert_eq; try reflexivity; try assumption.

Lemma ctrMetrics_own mp rs m cm :
  mp !! "ctr" = Some cm ->
  m !! "avgCTR" = None -> m !! "maxCTR" = None -> m !! "minCTR" = None ->
  let vals := columnValues parseFloat rs (index cm) in
  ctrMetrics mp rs m !! "avgCTR"
  = statistic vals (fun vals => VStr (JsNumber.toFixed (average vals) 2)) /\
  ctrMetrics mp rs m !! "maxCTR"
  = statistic vals (fun vals => VStr (JsNumber.toFixed (JsNumber.max vals) 2)) /\
  ctrMetrics mp rs m !! "minCTR"
  = statistic vals (fun vals => VStr (JsNumber.toFixed (JsNumber.min vals) 2)).
Proof.
  intros Hm Ha Hx Hn vals. subst vals. unfold ctrMetrics, statistic.
  repeat split; own_key Hm.
Qed.

Lemma cpmMetrics_own mp rs m cm :
  mp !! "cpm" = Some cm ->
  m !! "avgCPM" = None -> m !! "maxCPM" = None -> m !! "minCPM" = None ->
  let vals := columnValues parseFloat rs (index cm) in
  cpmMetrics mp rs m !! "avgCPM"
  = statistic vals (fun vals => VStr (JsNumber.toFixed (average vals) 2)) /\
  cpmMetrics mp rs m !! "maxCPM"
  = statistic vals (fun vals => VStr (JsNumber.toFixed (JsNumber.max vals) 2)) /\
  cpmMetrics mp rs m !! "minCPM"
  = statistic vals (fun vals => VStr (JsNumber.toFixed (JsNumber.min vals) 2)).
Proof.
  intros Hm Ha Hx Hn vals. subst vals. unfold cpmMetrics, statistic.
  repeat split; own_key Hm.
Qed.

Lemma reachMetrics_own mp rs m cm :
  mp !! "reach" = Some cm ->
  m !! "totalReach" = None -> m !! "avgReach" = None ->
  let vals := columnValues parseInt rs (index cm) in
  reachMetrics mp rs m !! "totalReach" = statistic vals (fun vals => VNum (JsNumber.sum vals)) /\
  reachMetrics mp rs m !! "avgReach"
  = statistic vals
      (fun vals =>
         VNum (JsNumber.round (JsNumber.sum vals / JsNumber.ofNat (length vals))%float)).
Proof.
  intros Hm Ht Ha vals. subst vals. unfold reachMetrics, statistic.
  repeat split; own_key Hm.
Qed.

Lemma frequencyMetrics_own mp rs m cm :
  mp !! "frequency" = Some cm ->
  m !! "avgFrequency" = None ->
  let vals := columnValues parseFloat rs (index cm) in
  frequencyMetrics mp rs m !! "avgFrequency"
  = statistic vals (fun vals => VStr (JsNumber.toFixed (average vals) 1)).
Proof.
  intros Hm Ha vals. subst vals. unfold frequencyMetrics, statistic. own_key Hm.
Qed.

Lemma costMetrics_own mp rs m cm :
  mp !! "cost" = Some cm ->
  m !! "totalCost" = None -> m !! "avgCost" = None ->
  let vals := columnValues parseFloat rs (index cm) in
  costMetrics mp rs m !! "totalCost" = statistic vals (fun vals => VNum (JsNumber.sum vals)) /\
  costMetrics mp rs m !! "avgCost"
  = statistic vals (fun vals => VStr (JsNumber.toFixed (average vals) 2)).
Proof.
  intros Hm Ht Ha vals. subst vals. unfold costMetrics, statistic, average.
  repeat split; own_key Hm.
Qed.

(** A snapshot, when one is returned, is the result of the block of the
    [try]: the rows are there, the validator returned, nothing was caught. *)
Lemma calculateBasicMetrics_snapshot (data : Table) (m : gmap string value) :
  calculateBasicMetrics data = Ok (Some m) ->
  exists rs v,
    rows data = Some rs /\ rs <> [] /\
    validateMediaData data = Ok v /\
    calculateBasicMetrics_try v rs = Ok m.
Proof.
  unfold calculateBasicMetrics. destruct (rows data) as [[|r rs]|]; try discriminate.
  destruct (validateMediaData data) as [v|e]; simpl; [|discriminate].
  intros H. injection H as <-. exists (r :: rs), v. repeat split. discriminate.
Qed.

Lemma calculateBasicMetrics_returns (data : Table) (rs : list (list value)) (v : Verdict) :
  rows data = Some rs -> rs <> [] -> validateMediaData data = Ok v ->
  exists m, calculateBasicMetrics data = Ok (Some m) /\ calculateBasicMetrics_try v rs = Ok m.
Proof.
  intros Hr Hne Hv. unfold calculateBasicMetrics. rewrite Hr, Hv.
  destruct rs as [|r rs']; [contradiction Hne; reflexivity|].
  simpl. eexists. split; reflexivity.
Qed.

(** The keys that every snapshot has. *)
Lemma calculateBasicMetrics_try_counts (v : Verdict) (rs : list (list value))
  (m : gmap string value) :
  calculateBasicMetrics_try v rs = Ok m ->
  m !! "totalRows" = Some (VNum (JsNumber.ofNat (length rs))) /\
  m !! "totalCampaigns" = Some (VNum (JsNumber.ofNat (length rs))) /\
  m !! "columnsFound" = Some (optionalStrings (foundColumns v)) /\
  m !! "dataQuality" = Some (optionalString (dataQuality v)).
Proof.
  unfold calculateBasicMetrics_try. intros H. injection H as <-.
  repeat split; frame;
    rewrite ?lookup_insert_ne by discriminate; apply lookup_insert_eq.
Qed.

Ltac base_key :=
  frame; rewrite ?lookup_insert_ne by discriminate; apply lookup_empty.

(** The statistics of each numeric field, as a function of the values that
    pass the filter. *)
Lemma calculateBasicMetrics_try_statistics (v : Verdict) (rs : list (list value))
  (m : gmap string value) :
  calculateBasicMetrics_try v rs = Ok m ->
  (forall cm, columnMappings v !! "ctr" = Some cm ->
     let vals := columnValues parseFloat rs (index cm) in
     m !! "avgCTR" = statistic vals (fun vals => VStr (JsNumber.toFixed (average vals) 2)) /\
     m !! "maxCTR"
     = statistic vals (fun vals => VStr (JsNumber.toFixed (JsNumber.max vals) 2)) /\
     m !! "minCTR"
     = statistic vals (fun vals => VStr (JsNumber.toFixed (JsNumber.min vals) 2))) /\
  (forall cm, columnMappings v !! "cpm" = Some cm ->
     let vals := columnValues parseFloat rs (index cm) in
     m !! "avgCPM" = statistic vals (fun vals => VStr (JsNumber.toFixed (average vals) 2)) /\
     m !! "maxCPM"
     = statistic vals (fun vals => VStr (JsNumber.toFixed (JsNumber.max vals) 2)) /\
     m !! "minCPM"
     = statistic vals (fun vals => VStr (JsNumber.toFixed (JsNumber.min vals) 2))) /\
  (forall cm, columnMappings v !! "reach" = Some cm ->
     let vals := columnValues parseInt rs (index cm) in
     m !! "totalReach" = statistic vals (fun vals => VNum (JsNumber.sum vals)) /\
     m !! "avgReach"
     = statistic vals
         (fun vals =>
            VNum (JsNumber.round (JsNumber.sum vals / JsNumber.ofNat (length vals))%float))) /\
  (forall cm, columnMappings v !! "frequency" = Some cm ->
     let vals := columnValues parseFloat rs (index cm) in
     m !! "avgFrequency"
     = statistic vals (fun vals => VStr (JsNumber.toFixed (average vals) 1))) /\
  (forall cm, columnMappings v !! "cost" = Some cm ->
     let vals := columnValues parseFloat rs (index cm) in
     m !! "totalCost" = statistic vals (fun vals => VNum (JsNumber.sum vals)) /\
     m !! "avgCost" = statistic vals (fun vals => VStr (JsNumber.toFixed (average vals) 2))).
Proof.
  unfold calculateBasicMetrics_try. intros H. injection H as <-.
  split; [|split; [|split; [|split]]]; intros cm Hcm; cbv zeta.
  - frame. apply ctrMetrics_own; [assumption | base_key ..].
  - frame. apply cpmMetrics_own; [assumption | base_key ..].
  - frame. apply reachMetrics_own; [assumption | base_key ..].
  - frame. apply frequencyMetrics_own; [assumption | base_key ..].
  - apply costMetrics_own; [assumption | base_key ..].
Qed.

(** The statistics keys of a field that is not mapped are absent. *)
Lemma calculateBasicMetrics_try_unmapped (v : Verdict) (rs : list (list value))
  (m : gmap string value) :
  calculateBasicMetrics_try v rs = Ok m ->
  (columnMappings v !! "ctr" = None ->
   m !! "avgCTR" = None /\ m !! "maxCTR" = None /\ m !! "minCTR" = None) /\
  (columnMappings v !! "cpm" = None ->
   m !! "avgCPM" = None /\ m !! "maxCPM" = None /\ m !! "minCPM" = None) /\
  (columnMappings v !! "reach" = None -> m !! "totalReach" = None /\ m !! "avgReach" = None) /\
  (columnMappings v !! "frequency" = None -> m !! "avgFrequency" = None) /\
  (columnMappings v !! "cost" = None -> m !! "totalCost" = None /\ m !! "avgCost" = None).
Proof.
  unfold calculateBasicMetrics_try. intros H. injection H as <-.
  split; [|split; [|split; [|split]]]; intros Hcm; repeat split; frame.
  all: try (unfold ctrMetrics; rewrite Hcm; base_key).
  all: try (unfold cpmMetrics; rewrite Hcm; base_key).
  all: try (unfold reachMetrics; rewrite Hcm; base_key).
  all: try (unfold frequencyMetrics; rewrite Hcm; base_key).
  all: unfold costMetrics; rewrite Hcm; base_key.
Qed.

(** C5.  The statistics of each matched numeric field (ctr, cpm, reach,
    frequency, cost) are computed from the cells of its column that parse as a
    number strictly greater than 0, and from nothing else: a row whose cell
    does not parse so contributes nothing.  When no value is left the keys of
    the field are absent from the snapshot.  For a ctr column holding 5, -3,
    abc, 0, 10 the values used are 5 and 10: average 7.5, min 5, max 10
    (reported as 7.50, 5.00, 10.00). *)
Theorem calculateBasicMetrics_positive_only :
  (forall (data : Table) (rs : list (list value)) (v : Verdict) (m : gmap string value),
      rows data = Some rs ->
      validateMediaData data = Ok v ->
      calculateBasicMetrics data = Ok (Some m) ->
      (forall cm, columnMappings v !! "ctr" = Some cm ->
         let vals := columnValues parseFloat rs (index cm) in
         m !! "avgCTR" = statistic vals (fun vals => VStr (JsNumber.toFixed (average vals) 2)) /\
         m !! "maxCTR"
         = statistic vals (fun vals => VStr (JsNumber.toFixed (JsNumber.max vals) 2)) /\
         m !! "minCTR"
         = statistic vals (fun vals => VStr (JsNumber.toFixed (JsNumber.min vals) 2))) /\
      (forall cm, columnMappings v !! "cpm" = Some cm ->
         let vals := columnValues parseFloat rs (index cm) in
         m !! "avgCPM" = statistic vals (fun vals => VStr (JsNumber.toFixed (average vals) 2)) /\
         m !! "maxCPM"
         = statistic vals (fun vals => VStr (JsNumber.toFixed (JsNumber.max vals) 2)) /\
         m !! "minCPM"
         = statistic vals (fun vals => VStr (JsNumber.toFixed (JsNumber.min vals) 2))) /\
      (forall cm, columnMappings v !! "reach" = Some cm ->
         let vals := columnValues parseInt rs (index cm) in
         m !! "totalReach" = statistic vals (fun vals => VNum (JsNumber.sum vals)) /\
         m !! "avgReach"
         = statistic vals
             (fun vals =>
                VNum (JsNumber.round
                        (JsNumber.sum vals / JsNumber.ofNat (length vals))%float))) /\
      (forall cm, columnMappings v !! "frequency" = Some cm ->
         let vals := columnValues parseFloat rs (index cm) in
         m !! "avgFrequency"
         = statistic vals (fun vals => VStr (JsNumber.toFixed (average vals) 1))) /\
      (forall cm, columnMappings v !! "cost" = Some cm ->
         let vals := columnValues parseFloat rs (index cm) in
         m !! "totalCost" = statistic vals (fun vals => VNum (JsNumber.sum vals)) /\
         m !! "avgCost"
         = statistic vals (fun vals => VStr (JsNumber.toFixed (average vals) 2))))
  /\
  (forall (parse : value -> float) (row : list value) (rs : list (list value)) (idx : Z),
      Forall (fun val => positiveNumber val = true) (columnValues parse rs idx) /\
      columnValues parse [] idx = [] /\
      columnValues parse (row :: rs) idx
      = if positiveNumber (parse (arrayGet row idx))
        then parse (arrayGet row idx) :: columnValues parse rs idx
        else columnValues parse rs idx)
  /\
  (exists m,
      calculateBasicMetrics numericTable = Ok (Some m) /\
      columnValues parseFloat [[VNum 5]; [VNum (-3)]; [VStr "abc"]; [VNum 0]; [VNum 10]] 0
      = [5%float; 10%float] /\
      average [5%float; 10%float] = 7.5%float /\
      JsNumber.min [5%float; 10%float] = 5%float /\
      JsNumber.max [5%float; 10%float] = 10%float /\
      m !! "avgCTR" = Some (VStr "7.50") /\
      m !! "minCTR" = Some (VStr "5.00") /\
      m !! "maxCTR" = Some (VStr "10.00"))
  /\
  (exists v m,
      validateMediaData nonPositiveTable = Ok v /\
      is_Some (columnMappings v !! "ctr") /\
      calculateBasicMetrics nonPositiveTable = Ok (Some m) /\
      m !! "avgCTR" = None /\ m !! "minCTR" = None /\ m !! "maxCTR" = None).
Proof.
  split; [|split; [|split]].
  - intros data rs v m Hr Hv Hm.
    destruct (calculateBasicMetrics_snapshot data m Hm) as (rs' & v' & Hr' & _ & Hv' & Htry).
    assert (rs' = rs) as -> by congruence. assert (v' = v) as -> by congruence.
    exact (calculateBasicMetrics_try_statistics v rs m Htry).
  - intros parse row rs idx. split; [apply columnValues_positive|].
    split; [reflexivity | apply columnValues_cons].
  - exists (snapshotOf numericTable). repeat split; evaluate.
  - exists (verdictOf nonPositiveTable), (snapshotOf nonPositiveTable).
    split; [evaluate|]. split; [|repeat split; evaluate].
    exists (searchPossibleNames [VStr "ctr"] ["ctr"] "ctr" (possibleNamesOf "ctr")). evaluate.
Qed.

Lemma calculateBasicMetrics_positive_only_witness :
  let cm := searchPossibleNames [VStr "ctr"] ["ctr"] "ctr" (possibleNamesOf "ctr") in
  snapshotOf numericTable !! "avgCTR"
  = statistic
      (columnValues parseFloat
         [[VNum 5]; [VNum (-3)]; [VStr "abc"]; [VNum 0]; [VNum 10]] (index cm))
      (fun vals => VStr (JsNumber.toFixed (average vals) 2)).
Proof.
  intros cm.
  refine (proj1 (proj1 (proj1 calculateBasicMetrics_positive_only
                          numericTable _ (verdictOf numericTable) (snapshotOf numericTable)
                          eq_refl _ _) cm _)).
  - evaluate.
  - evaluate.
  - evaluate.
Defined.

(** C10.  In a snapshot returned by [calculateBasicMetrics], the statistics
    avgCTR, minCTR, maxCTR, avgCPM, minCPM, maxCPM and avgCost, where present,
    are strings made by [toFixed(2)], and avgFrequency one made by
    [toFixed(1)]; totalReach, avgReach and totalCost, where present, are
    numbers; totalRows and totalCampaigns are always present and are the
    number of rows. *)
Theorem calculateBasicMetrics_value_types (data : Table) (m : gmap string value) :
  calculateBasicMetrics data = Ok (Some m) ->
  (forall key,
      In key ["avgCTR"; "minCTR"; "maxCTR"; "avgCPM"; "minCPM"; "maxCPM"; "avgCost"] ->
      fixedPointOrAbsent m key 2) /\
  fixedPointOrAbsent m "avgFrequency" 1 /\
  (forall key, In key ["totalReach"; "avgReach"; "totalCost"] -> numberOrAbsent m key) /\
  (exists rs,
      rows data = Some rs /\
      m !! "totalRows" = Some (VNum (JsNumber.ofNat (length rs))) /\
      m !! "totalCampaigns" = Some (VNum (JsNumber.ofNat (length rs)))).
Proof.
  intros Hm.
  destruct (calculateBasicMetrics_snapshot data m Hm) as (rs & v & Hr & _ & _ & Htry).
  pose proof (calculateBasicMetrics_try_statistics v rs m Htry)
    as (Hctr & Hcpm & Hreach & Hfreq & Hcost).
  pose proof (calculateBasicMetrics_try_unmapped v rs m Htry)
    as (Nctr & Ncpm & Nreach & Nfreq & Ncost).
  pose proof (calculateBasicMetrics_try_counts v rs m Htry) as (Hrows & Hcamp & _).
  assert (forall vals stat key digits,
             m !! key = statistic vals (fun vals => VStr (JsNumber.toFixed (stat vals) digits)) ->
             fixedPointOrAbsent m key digits) as fixed.
  { intros vals stat key digits H. unfold fixedPointOrAbsent. rewrite H.
    destruct vals; [left; reflexivity | right; simpl; eauto]. }
  assert (forall vals stat key,
             m !! key = statistic vals (fun vals => VNum (stat vals)) ->
             numberOrAbsent m key) as number.
  { intros vals stat key H. unfold numberOrAbsent. rewrite H.
    destruct vals; [left; reflexivity | right; simpl; eauto]. }
  split; [|split; [|split]].
  - intros key Hkey. simpl in Hkey.
    destruct Hkey as [<-|[<-|[<-|[<-|[<-|[<-|[<-|[]]]]]]]].
    + destruct (columnMappings v !! "ctr") as [cm|] eqn:E;
        [eapply fixed, (Hctr cm eq_refl) | left; apply (Nctr eq_refl)].
    + destruct (columnMappings v !! "ctr") as [cm|] eqn:E;
        [eapply fixed, (Hctr cm eq_refl) | left; apply (Nctr eq_refl)].
    + destruct (columnMappings v !! "ctr") as [cm|] eqn:E;
        [eapply fixed, (Hctr cm eq_refl) | left; apply (Nctr eq_refl)].
    + destruct (columnMappings v !! "cpm") as [cm|] eqn:E;
        [eapply fixed, (Hcpm cm eq_refl) | left; apply (Ncpm eq_refl)].
    + destruct (columnMappings v !! "cpm") as [cm|] eqn:E;
        [eapply fixed, (Hcpm cm eq_refl) | left; apply (Ncpm eq_refl)].
    + destruct (columnMappings v !! "cpm") as [cm|] eqn:E;
        [eapply fixed, (Hcpm cm eq_refl) | left; apply (Ncpm eq_refl)].
    + destruct (columnMappings v !! "cost") as [cm|] eqn:E;
        [eapply fixed, (Hcost cm eq_refl) | left; apply (Ncost eq_refl)].
  - destruct (columnMappings v !! "frequency") as [cm|] eqn:E;
      [eapply fixed, (Hfreq cm eq_refl) | left; apply (Nfreq eq_refl)].
  - intros key Hkey. simpl in Hkey. destruct Hkey as [<-|[<-|[<-|[]]]].
    + destruct (columnMappings v !! "reach") as [cm|] eqn:E;
        [eapply number, (Hreach cm eq_refl) | left; apply (Nreach eq_refl)].
    + destruct (columnMappings v !! "reach") as [cm|] eqn:E;
        [eapply number, (Hreach cm eq_refl) | left; apply (Nreach eq_refl)].
    + destruct (columnMappings v !! "cost") as [cm|] eqn:E;
        [eapply number, (Hcost cm eq_refl) | left; apply (Ncost eq_refl)].
  - exists rs. repeat split; assumption.
Qed.

Lemma calculateBasicMetrics_value_types_witness :
  (forall key,
      In key ["avgCTR"; "minCTR"; "maxCTR"; "avgCPM"; "minCPM"; "maxCPM"; "avgCost"] ->
      fixedPointOrAbsent (snapshotOf scenarioTable) key 2) /\
  fixedPointOrAbsent (snapshotOf scenarioTable) "avgFrequency" 1 /\
  (forall key, In key ["totalReach"; "avgReach"; "totalCost"] ->
               numberOrAbsent (snapshotOf scenarioTable) key) /\
  (exists rs,
      rows scenarioTable = Some rs /\
      snapshotOf scenarioTable !! "totalRows" = Some (VNum (JsNumber.ofNat (length rs))) /\
      snapshotOf scenarioTable !! "totalCampaigns" = Some (VNum (JsNumber.ofNat (length rs)))).
Proof.
  apply (calculateBasicMetrics_value_types scenarioTable). evaluate.
Defined.

(** C6, as amended.  For the table with the headers Platform,
    Click-Through Rate, CPM ($), Total Reach and the single row Facebook,
    2.3, 15.5, 45000, [validateMediaData] finds five canonical fields:
    channel, ctr, cpm and reach at the columns 0 to 3, and also clicks, whose
    alias click is contained in the header click-through_rate.  The verdict is
    valid and of excellent quality, and [calculateBasicMetrics] reports avgCTR
    2.30, avgCPM 15.50 and totalReach 45000. *)
Theorem scenario_platform_table :
  exists v m,
    validateMediaData scenarioTable = Ok v /\
    foundColumns v = Some ["channel"; "ctr"; "cpm"; "reach"; "clicks"] /\
    missingColumns v = ["frequency"; "impressions"; "cost"] /\
    index <$> columnMappings v !! "channel" = Some 0%Z /\
    index <$> columnMappings v !! "ctr" = Some 1%Z /\
    index <$> columnMappings v !! "cpm" = Some 2%Z /\
    index <$> columnMappings v !! "reach" = Some 3%Z /\
    index <$> columnMappings v !! "clicks" = Some 1%Z /\
    isValid v = true /\
    dataQuality v = Some "excellent" /\
    calculateBasicMetrics scenarioTable = Ok (Some m) /\
    m !! "avgCTR" = Some (VStr "2.30") /\
    m !! "avgCPM" = Some (VStr "15.50") /\
    m !! "totalReach" = Some (VNum 45000).
Proof.
  exists (verdictOf scenarioTable), (snapshotOf scenarioTable).
  repeat split; evaluate.
Qed.

(** C6 fails as stated: the fields found for that table are not exactly
    channel, ctr, cpm and reach, since clicks is matched as well, on the
    header Click-Through Rate. *)
Lemma scenario_platform_table_finds_clicks :
  exists v cm,
    validateMediaData scenarioTable = Ok v /\
    foundColumns v <> Some ["channel"; "ctr"; "cpm"; "reach"] /\
    columnMappings v !! "clicks" = Some cm /\
    found cm = true /\
    originalName cm = VStr "Click-Through Rate" /\
    headerMatches (normalizePossible "click") "click-through_rate" = true.
Proof.
  exists (verdictOf scenarioTable),
    (searchPossibleNames
       [VStr "Platform"; VStr "Click-Through Rate"; VStr "CPM ($)"; VStr "Total Reach"]
       ["platform"; "click-through_rate"; "cpm_($)"; "total_reach"]
       "clicks" (possibleNamesOf "clicks")).
  split; [evaluate|]. split; [|repeat split; evaluate].
  assert (foundColumns (verdictOf scenarioTable)
          = Some ["channel"; "ctr"; "cpm"; "reach"; "clicks"]) as -> by evaluate.
  discriminate.
Qed.

(** Two canonical fields can resolve to the same header: in the
    scenario table both ctr and clicks are matched on the header at index 1,
    and both matches stand. *)
Example scenario_shared_header :
  exists v ctr clicks,
    validateMediaData scenarioTable = Ok v /\
    columnMappings v !! "ctr" = Some ctr /\
    columnMappings v !! "clicks" = Some clicks /\
    index ctr = 1%Z /\ index clicks = 1%Z /\
    originalName ctr = VStr "Click-Through Rate" /\
    originalName clicks = VStr "Click-Through Rate".
Proof.
  exists (verdictOf scenarioTable),
    (searchPossibleNames
       [VStr "Platform"; VStr "Click-Through Rate"; VStr "CPM ($)"; VStr "Total Reach"]
       ["platform"; "click-through_rate"; "cpm_($)"; "total_reach"]
       "ctr" (possibleNamesOf "ctr")),
    (searchPossibleNames
       [VStr "Platform"; VStr "Click-Through Rate"; VStr "CPM ($)"; VStr "Total Reach"]
       ["platform"; "click-through_rate"; "cpm_($)"; "total_reach"]
       "clicks" (possibleNamesOf "clicks")).
  repeat split; evaluate.
Qed.

(** C7.  For a table whose [rows] are absent or empty, whatever its headers,
    [calculateBasicMetrics] returns [null]: no exception, no snapshot. *)
Theorem calculateBasicMetrics_no_rows (hs : option (list value)) :
  calculateBasicMetrics {| headers := hs; rows := None |} = Ok None /\
  calculateBasicMetrics {| headers := hs; rows := Some [] |} = Ok None.
Proof. split; reflexivity. Qed.

(** C4, where the code departs from it.  [calculateBasicMetrics] calls the
    validator before its [try] block: on a table with rows and a blank header
    cell (the CSV reader turns an empty field into [null]) the TypeError of
    [null.toString()] reaches the caller; the table with the header row
    Channel, (blank), CTR is one.  And the [catch] clause cannot return its
    minimal snapshot: it reads [totalRows], which is out of scope there, so
    whatever error it is given it throws a ReferenceError. *)
Theorem calculateBasicMetrics_propagates_exception :
  (forall (data : Table) (hs : list value) (rs : list (list value)),
      headers data = Some hs -> rows data = Some rs -> rs <> [] ->
      Exists (fun h => printable h = false) hs ->
      exists msg, calculateBasicMetrics data = Throw (TypeError msg))
  /\
  (exists msg, calculateBasicMetrics blankHeaderTable = Throw (TypeError msg))
  /\
  (forall (error : exn) (snapshot : result (gmap string value)),
      snapshot = Throw error ->
      exists msg,
        tryCatch snapshot calculateBasicMetrics_catch = Throw (ReferenceError msg)).
Proof.
  split; [|split].
  - intros data hs rs Hh Hr Hne Hblank.
    destruct (validateMediaData_blank_header data hs Hh Hblank) as [msg Hv].
    exists msg. unfold calculateBasicMetrics. rewrite Hr, Hv.
    destruct rs; [contradiction Hne|]; reflexivity.
  - exists "Cannot read properties of null (reading 'toString')". evaluate.
  - intros error snapshot ->. eexists. reflexivity.
Qed.

(** ** The payload preparer *)

(** X3.  Without a [rows] array the preparer throws a TypeError, at
    [data.rows.slice], once the validator has returned. *)
Lemma prepareDataForAI_absent_rows (data : Table) (v : Verdict) :
  rows data = None -> validateMediaData data = Ok v ->
  exists msg, prepareDataForAI data = Throw (TypeError msg).
Proof.
  intros Hr Hv. unfold prepareDataForAI. rewrite Hv, Hr. cbn [bind]. eauto.
Qed.

Lemma prepareDataForAI_absent_rows_witness :
  exists msg,
    prepareDataForAI {| headers := Some [VStr "ctr"]; rows := None |} = Throw (TypeError msg).
Proof.
  apply (prepareDataForAI_absent_rows {| headers := Some [VStr "ctr"]; rows := None |}
           (verdictOf {| headers := Some [VStr "ctr"]; rows := None |})).
  - reflexivity.
  - evaluate.
Defined.

(** C9.  Whenever [prepareDataForAI] returns a payload, its [sampleRows] are
    the first min(|rows|, 10) rows of the table, in order, so never more than
    10, and its [totalRows] is the number of all rows; and it does return one
    for every table that has a [rows] array and no blank header cell. *)
Theorem prepareDataForAI_sample :
  (forall (data : Table) (p : Payload),
      prepareDataForAI data = Ok p ->
      exists rs,
        rows data = Some rs /\
        sampleRows p = firstn 10 rs /\
        length (sampleRows p) = Nat.min (length rs) 10 /\
        length (sampleRows p) <= 10 /\
        (forall i, i < 10 -> sampleRows p !! i = rs !! i) /\
        totalRows p = length rs)
  /\
  (forall (data : Table) (rs : list (list value)),
      rows data = Some rs ->
      match headers data with
      | Some hs => Forall (fun h => printable h = true) hs
      | None => True
      end ->
      exists p, prepareDataForAI data = Ok p).
Proof.
  split.
  - intros data p. unfold prepareDataForAI.
    destruct (validateMediaData data) as [v|e]; cbn [bind]; [|discriminate].
    destruct (rows data) as [rs|] eqn:Hr; cbn [bind]; [|discriminate].
    destruct (calculateBasicMetrics data) as [metrics|e]; cbn [bind]; [|discriminate].
    intros H. apply Ok_inj in H. subst p. exists rs.
    cbn [sampleRows totalRows]. unfold slice0.
    split; [reflexivity|]. split; [reflexivity|].
    split; [rewrite length_firstn; lia|].
    split; [rewrite length_firstn; lia|].
    split; [|reflexivity].
    intros i Hi. apply (lookup_take_lt rs 10 i). exact Hi.
  - intros data rs Hr Hp.
    destruct (validateMediaData_returns data Hp) as [v Hv].
    unfold prepareDataForAI. rewrite Hv, Hr. simpl.
    destruct rs as [|r rs'].
    + unfold calculateBasicMetrics. rewrite Hr. simpl. eauto.
    + destruct (calculateBasicMetrics_returns data (r :: rs') v Hr ltac:(discriminate) Hv)
        as (m & -> & _).
      simpl. eauto.
Qed.

Lemma prepareDataForAI_sample_witness :
  exists p, prepareDataForAI scenarioTable = Ok p.
Proof.
  apply (proj2 prepareDataForAI_sample scenarioTable
           [[VStr "Facebook"; VNum 2.3; VNum 15.5; VNum 45000]]).
  - reflexivity.
  - simpl. repeat constructor.
Defined.

(** ** Substrings and the normalization of a header *)

Lemma append_cons (c : ascii) (a b : string) : String c a +:+ b = String c (a +:+ b).
Proof. reflexivity. Qed.

Lemma append_empty_l (a : string) : EmptyString +:+ a = a.
Proof. reflexivity. Qed.

Lemma append_assoc (a b c : string) : (a +:+ b) +:+ c = a +:+ (b +:+ c).
Proof.
  induction a as [|x a IH]; [reflexivity|]. rewrite !append_cons. f_equal. exact IH.
Qed.

Lemma append_empty_r (a : string) : a +:+ EmptyString = a.
Proof. induction a as [|x a IH]; [reflexivity|]. rewrite append_cons. f_equal. exact IH. Qed.

Ltac appends := rewrite ?append_cons, ?append_empty_l.

Lemma startsWith_append (n post : string) : JsString.startsWith (n +:+ post) n = true.
Proof.
  induction n as [|c n IH]; appends; simpl.
  - destruct post; reflexivity.
  - rewrite Ascii.eqb_refl. exact IH.
Qed.

Lemma startsWith_split (s n : string) :
  JsString.startsWith s n = true -> exists post, s = n +:+ post.
Proof.
  revert s. induction n as [|c n IH]; intros s H.
  - exists s. reflexivity.
  - destruct s as [|b s]; simpl in H; [discriminate H|].
    apply andb_true_iff in H as [Hc Hs]. apply Ascii.eqb_eq in Hc. subst b.
    destruct (IH s Hs) as [post ->]. exists post. reflexivity.
Qed.

Lemma includes_unfold (s n : string) :
  JsString.includes s n
  = JsString.startsWith s n
    || match s with
       | EmptyString => false
       | String _ s' => JsString.includes s' n
       end.
Proof. destruct s; reflexivity. Qed.

(** [includes] finds exactly the substrings. *)
Lemma includes_append (pre n post : string) :
  JsString.includes (pre +:+ n +:+ post) n = true.
Proof.
  induction pre as [|c pre IH]; rewrite includes_unfold; appends.
  - rewrite startsWith_append. reflexivity.
  - rewrite IH. apply orb_true_r.
Qed.

Lemma includes_split (s n : string) :
  JsString.includes s n = true -> exists pre post, s = pre +:+ n +:+ post.
Proof.
  induction s as [|c s IH]; rewrite includes_unfold; intros H.
  - rewrite orb_false_r in H. destruct (startsWith_split _ _ H) as [post ->].
    exists EmptyString, post. reflexivity.
  - apply orb_true_iff in H as [H|H].
    + destruct (startsWith_split _ _ H) as [post ->]. exists EmptyString, post. reflexivity.
    + destruct (IH H) as (pre & post & ->). exists (String c pre), post. reflexivity.
Qed.

Lemma trimStart_keeps (pre n post : string) (c : ascii) :
  JsString.isWhiteSpace c = false ->
  exists pre',
    JsString.trimStart (pre +:+ String c n +:+ post) = pre' +:+ String c n +:+ post.
Proof.
  intros Hc. induction pre as [|a pre IH]; appends; simpl.
  - rewrite Hc. exists EmptyString. reflexivity.
  - destruct (JsString.isWhiteSpace a).
    + exact IH.
    + exists (String a pre). reflexivity.
Qed.

Lemma trimEnd_cons (c : ascii) (s : string) :
  JsString.isWhiteSpace c = false ->
  JsString.trimEnd (String c s) = String c (JsString.trimEnd s).
Proof. intros Hc. simpl. rewrite Hc. destruct (JsString.trimEnd s); reflexivity. Qed.

Lemma trimEnd_append (a b : string) :
  JsString.trimEnd b <> EmptyString -> JsString.trimEnd (a +:+ b) = a +:+ JsString.trimEnd b.
Proof.
  intros Hb. induction a as [|x a IH]; appends; [reflexivity|].
  simpl. rewrite IH. destruct (a +:+ JsString.trimEnd b) eqn:E; [|reflexivity].
  destruct a; [contradiction | discriminate E].
Qed.

Lemma trimEnd_solid (n post : string) :
  solid n = true -> JsString.trimEnd (n +:+ post) = n +:+ JsString.trimEnd post.
Proof.
  induction n as [|c n IH]; intros H; appends; [reflexivity|].
  simpl in H. apply andb_true_iff in H as [Hc Hn]. apply negb_true_iff in Hc.
  rewrite (trimEnd_cons c _ Hc), (IH Hn). reflexivity.
Qed.

Lemma replaceWhiteSpaceRuns_cons (r : string) (c : ascii) (s : string) :
  JsString.isWhiteSpace c = false ->
  JsString.replaceWhiteSpaceRuns r (String c s)
  = String c (JsString.replaceWhiteSpaceRuns r s).
Proof. intros Hc. simpl. rewrite Hc. reflexivity. Qed.

Lemma replaceWhiteSpaceRuns_solid (r n t : string) :
  solid n = true ->
  JsString.replaceWhiteSpaceRuns r (n +:+ t) = n +:+ JsString.replaceWhiteSpaceRuns r t.
Proof.
  induction n as [|c n IH]; intros H; appends; [reflexivity|].
  simpl in H. apply andb_true_iff in H as [Hc Hn]. apply negb_true_iff in Hc.
  rewrite (replaceWhiteSpaceRuns_cons r c _ Hc), (IH Hn). reflexivity.
Qed.

Lemma replaceWhiteSpaceRuns_prefix (r pre t : string) :
  exists x,
    JsString.replaceWhiteSpaceRuns r (pre +:+ t) = x +:+ JsString.replaceWhiteSpaceRuns r t.
Proof.
  induction pre as [|a pre [x IH]]; appends.
  - exists EmptyString. reflexivity.
  - destruct (JsString.isWhiteSpace a) eqn:Ha.
    + simpl. rewrite Ha. destruct (pre +:+ t) as [|c' rest] eqn:E.
      * destruct pre; [|discriminate E]. rewrite append_empty_l in E. subst t.
        exists r. simpl. rewrite append_empty_r. reflexivity.
      * destruct (JsString.isWhiteSpace c').
        -- exists x. exact IH.
        -- exists (r +:+ x). rewrite IH. rewrite append_assoc. reflexivity.
    + rewrite (replaceWhiteSpaceRuns_cons r a _ Ha), IH. exists (String a x). reflexivity.
Qed.

(** A word without white space that occurs in a text still occurs in it
    after [.trim().replace(/\s+/g, '_')]. *)
Lemma includes_normalized (s word : string) :
  solid word = true ->
  JsString.includes s word = true ->
  JsString.includes (JsString.replaceWhiteSpaceRuns "_" (JsString.trim s)) word = true.
Proof.
  intros Hsolid H. destruct word as [|c n].
  - rewrite includes_unfold. destruct (JsString.replaceWhiteSpaceRuns _ _); reflexivity.
  - destruct (includes_split _ _ H) as (pre & post & ->).
    assert (JsString.isWhiteSpace c = false) as Hc.
    { simpl in Hsolid. apply andb_true_iff in Hsolid as [Hc _].
      apply negb_true_iff in Hc. exact Hc. }
    unfold JsString.trim.
    destruct (trimStart_keeps pre n post c Hc) as [pre' ->].
    rewrite trimEnd_append.
    + rewrite (trimEnd_solid _ _ Hsolid).
      destruct (replaceWhiteSpaceRuns_prefix "_" pre'
                  (String c n +:+ JsString.trimEnd post)) as [x ->].
      rewrite (replaceWhiteSpaceRuns_solid _ _ _ Hsolid).
      apply includes_append.
    + rewrite (trimEnd_solid _ _ Hsolid). discriminate.
Qed.

(** ** More on the data validator *)

Lemma printable_or_blank (hs : list value) :
  Forall (fun h => printable h = true) hs \/ Exists (fun h => printable h = false) hs.
Proof.
  induction hs as [|h hs [IH|IH]].
  - left. constructor.
  - destruct (printable h) eqn:Hp.
    + left. constructor; assumption.
    + right. apply Exists_cons_hd. exact Hp.
  - right. apply Exists_cons_tl. exact IH.
Qed.

(** A verdict is either the one for no headers, or comes from a header row
    without a blank cell. *)
Lemma validateMediaData_Ok (data : Table) (v : Verdict) :
  validateMediaData data = Ok v ->
  ((headers data = None \/ headers data = Some []) /\ v = noHeadersVerdict) \/
  (exists hs,
      headers data = Some hs /\ hs <> [] /\ Forall (fun h => printable h = true) hs).
Proof.
  intros Hv. destruct (headers data) as [[|h hs]|] eqn:Hh.
  - left. unfold validateMediaData in Hv. rewrite Hh in Hv.
    split; [right; reflexivity | congruence].
  - right. exists (h :: hs). split; [reflexivity|]. split; [discriminate|].
    destruct (printable_or_blank (h :: hs)) as [Hp|Hblank]; [exact Hp|].
    destruct (validateMediaData_blank_header data (h :: hs) Hh Hblank) as [msg Hmsg].
    congruence.
  - left. unfold validateMediaData in Hv. rewrite Hh in Hv.
    split; [left; reflexivity | congruence].
Qed.

Lemma matchable_mentions (hs : list value) (column word : string) :
  Forall (fun h => printable h = true) hs ->
  In word (possibleNamesOf column) ->
  solid word = true -> normalizePossible word = word ->
  mentions hs word = true ->
  matchable hs column = true.
Proof.
  intros Hp Hword Hsolid Hnorm Hm.
  rewrite (matchable_printable hs Hp). unfold aliasHits.
  apply existsb_exists. exists word. split; [exact Hword|].
  apply existsb_exists in Hm as (h & Hh & Hinc).
  apply existsb_exists. exists (normalizedText h). split; [apply in_map; exact Hh|].
  rewrite Hnorm. unfold headerMatches.
  assert (JsString.includes (normalizedText h) word = true) as ->.
  { apply includes_normalized; assumption. }
  rewrite orb_true_r. reflexivity.
Qed.

Lemma matchable_more_headers (hs hs' : list value) (column : string) :
  Forall (fun h => printable h = true) hs ->
  Forall (fun h => printable h = true) hs' ->
  (forall h, In h hs -> In h hs') ->
  matchable hs column = true -> matchable hs' column = true.
Proof.
  intros Hp Hp' Hsub. rewrite (matchable_printable hs Hp), (matchable_printable hs' Hp').
  unfold aliasHits. intros H.
  apply existsb_exists in H as (alias & Halias & H).
  apply existsb_exists in H as (header & Hheader & H).
  apply in_map_iff in Hheader as (h & <- & Hh).
  apply existsb_exists. exists alias. split; [exact Halias|].
  apply existsb_exists. exists (normalizedText h). split; [|exact H].
  apply in_map. apply Hsub. exact Hh.
Qed.

Lemma filter_length_le {A : Type} (p q : A -> bool) (l : list A) :
  (forall x, In x l -> p x = true -> q x = true) ->
  length (List.filter p l) <= length (List.filter q l).
Proof.
  induction l as [|x l IH]; intros H; simpl; [lia|].
  assert (length (List.filter p l) <= length (List.filter q l)) as Hle.
  { apply IH. intros y Hy. apply H. right. exact Hy. }
  destruct (p x) eqn:Hpx.
  - rewrite (H x (or_introl eq_refl) Hpx). simpl. lia.
  - destruct (q x); simpl; lia.
Qed.

Lemma mentionsPlatformOrSource_text (h : value) :
  printable h = true ->
  mentionsPlatformOrSource h
  = Ok (JsString.includes (loweredText h) "platform"
        || JsString.includes (loweredText h) "source").
Proof.
  intros Hp. unfold mentionsPlatformOrSource, loweredText.
  rewrite (toStringMethod_printable h Hp). cbn [bind].
  destruct (JsString.includes _ "platform"); reflexivity.
Qed.

Lemma someResult_mentions (hs : list value) :
  Forall (fun h => printable h = true) hs ->
  someResult mentionsPlatformOrSource hs
  = Ok (mentions hs "platform" || mentions hs "source").
Proof.
  unfold mentions. induction 1 as [|h hs Hh _ IH]; [reflexivity|].
  cbn [someResult existsb]. rewrite (mentionsPlatformOrSource_text h Hh). cbn [bind].
  destruct (JsString.includes (loweredText h) "platform"); cbn [orb].
  - reflexivity.
  - destruct (JsString.includes (loweredText h) "source"); cbn [orb].
    + rewrite orb_true_r. reflexivity.
    + exact IH.
Qed.

(** The value of [hasChannelData] for a header row without a blank cell. *)
Lemma validateMediaData_hasChannelData (data : Table) (hs : list value) (v : Verdict) :
  headers data = Some hs -> hs <> [] ->
  Forall (fun h => printable h = true) hs ->
  validateMediaData data = Ok v ->
  hasChannelData v
  = Some match columnMappings v !! "channel" with
         | Some m => ChannelMatch m
         | None => ChannelHeader (mentions hs "platform" || mentions hs "source")
         end.
Proof.
  intros Hh Hne Hp. unfold validateMediaData. rewrite Hh.
  destruct hs as [|h hs']; [contradiction Hne; reflexivity|].
  destruct (forEachColumn_printable (h :: hs') Hp idealColumns noColumns)
    as (acc & -> & _). cbn [bind].
  destruct (accMappings acc !! "channel") as [m|] eqn:E; cbn [bind].
  - intros H. apply Ok_inj in H. subst v. cbn [hasChannelData columnMappings].
    rewrite E. reflexivity.
  - rewrite (someResult_mentions (h :: hs') Hp). cbn [bind].
    intros H. apply Ok_inj in H. subst v. cbn [hasChannelData columnMappings].
    rewrite E. reflexivity.
Qed.

(** X4.  The flag [hasChannelData] says no more than the column mappings: it is
    the match of the field channel when that field is found, and it is
    [false] otherwise.  The alternative of the [||], which looks for platform
    or source in the headers, never yields [true], because both words are
    aliases of channel. *)
Theorem validateMediaData_channel_flag (data : Table) (v : Verdict) :
  validateMediaData data = Ok v ->
  hasChannelData v <> Some (ChannelHeader true) /\
  (forall cm, hasChannelData v = Some (ChannelMatch cm) <->
              columnMappings v !! "channel" = Some cm) /\
  (hasChannelData v = Some (ChannelHeader false) ->
   columnMappings v !! "channel" = None).
Proof.
  intros Hv. destruct (validateMediaData_Ok data v Hv) as [[_ ->]|(hs & Hh & Hne & Hp)].
  - split; [discriminate|]. split; [|discriminate].
    intros cm. split; intros H; [discriminate H|].
    cbn [noHeadersVerdict columnMappings] in H. rewrite lookup_empty in H. discriminate H.
  - rewrite (validateMediaData_hasChannelData data hs v Hh Hne Hp Hv).
    destruct (validateMediaData_headers data hs Hh Hne Hp)
      as (v' & Hv' & _ & _ & _ & _ & _ & Hmap).
    assert (v' = v) as -> by congruence.
    destruct (columnMappings v !! "channel") as [m|] eqn:E.
    + split; [discriminate|]. split; [|discriminate].
      intros cm. split; intros H; congruence.
    + assert (matchable hs "channel" = false) as Hch.
      { rewrite Hmap in E. destruct (matchable hs "channel"); [discriminate E | reflexivity]. }
      assert (mentions hs "platform" = false) as ->.
      { destruct (mentions hs "platform") eqn:Hm; [|reflexivity].
        rewrite (matchable_mentions hs "channel" "platform" Hp) in Hch;
          [discriminate Hch | simpl; tauto | reflexivity | reflexivity | exact Hm]. }
      assert (mentions hs "source" = false) as ->.
      { destruct (mentions hs "source") eqn:Hm; [|reflexivity].
        rewrite (matchable_mentions hs "channel" "source" Hp) in Hch;
          [discriminate Hch | simpl; tauto | reflexivity | reflexivity | exact Hm]. }
      split; [discriminate|]. split; [|reflexivity].
      intros cm. split; intros H; discriminate H.
Qed.

Lemma validateMediaData_channel_flag_witness :
  hasChannelData (verdictOf scenarioTable) <> Some (ChannelHeader true) /\
  (forall cm, hasChannelData (verdictOf scenarioTable) = Some (ChannelMatch cm) <->
              columnMappings (verdictOf scenarioTable) !! "channel" = Some cm) /\
  (hasChannelData (verdictOf scenarioTable) = Some (ChannelHeader false) ->
   columnMappings (verdictOf scenarioTable) !! "channel" = None).
Proof.
  apply (validateMediaData_channel_flag scenarioTable). evaluate.
Defined.

(** X5.  Every entry of [columnMappings] is sound: it is stored under one of
    the eight columns the validator tries, it is a found match mapped to that
    column, its [index] is a position of the header row, its [originalName]
    is the header at that position, and the normalized text of that header
    matches one of the aliases of the column. *)
Theorem validateMediaData_mappings_sound (data : Table) (v : Verdict) (c : string)
  (cm : ColumnMatch) :
  validateMediaData data = Ok v ->
  columnMappings v !! c = Some cm ->
  In c idealColumns /\ found cm = true /\ mappedTo cm = c /\
  exists hs i h alias,
    headers data = Some hs /\
    index cm = Z.of_nat i /\ hs !! i = Some h /\ originalName cm = h /\
    In alias (possibleNamesOf c) /\
    headerMatches (normalizePossible alias) (normalizedText h) = true.
Proof.
  intros Hv Hc. destruct (validateMediaData_Ok data v Hv) as [[_ ->]|(hs & Hh & Hne & Hp)].
  - cbn [noHeadersVerdict columnMappings] in Hc. rewrite lookup_empty in Hc. discriminate Hc.
  - destruct (validateMediaData_headers data hs Hh Hne Hp)
      as (v' & Hv' & _ & _ & _ & _ & _ & Hmap).
    assert (v' = v) as -> by congruence.
    rewrite Hmap in Hc.
    destruct (existsb (String.eqb c) idealColumns) eqn:Hin; [|discriminate Hc].
    destruct (matchable hs c) eqn:Hm; [|discriminate Hc].
    cbn [andb] in Hc. apply (inj Some) in Hc. subst cm.
    split.
    { apply existsb_exists in Hin as (c' & Hc' & Heq).
      apply String.eqb_eq in Heq. subst c'. exact Hc'. }
    split.
    { rewrite searchPossibleNames_found. rewrite (matchable_printable hs Hp) in Hm. exact Hm. }
    split; [apply searchPossibleNames_mappedTo|].
    destruct (searchPossibleNames_first hs (map normalizedText hs) c (possibleNamesOf c))
      as [(a & i & (alias & header & Ha & Hi & Hmatch & _) & ->)|[Hnone _]].
    + rewrite list_lookup_fmap in Hi.
      destruct (hs !! i) as [h|] eqn:Hhi; [|discriminate Hi].
      cbn in Hi. apply (inj Some) in Hi. subst header.
      exists hs, i, h, alias. cbn [index originalName].
      split; [exact Hh|]. split; [reflexivity|]. split; [exact Hhi|].
      split.
      { unfold arrayGet. destruct (Z.ltb_spec (Z.of_nat i) 0) as [Hlt|_]; [lia|].
        rewrite Nat2Z.id, Hhi. reflexivity. }
      split; [|exact Hmatch].
      apply list_elem_of_In. apply list_elem_of_lookup. exists a. exact Ha.
    + exfalso. rewrite (matchable_printable hs Hp) in Hm. unfold aliasHits in Hm.
      apply existsb_exists in Hm as (alias & Halias & Hm).
      apply existsb_exists in Hm as (header & Hheader & Hm).
      rewrite (Hnone alias header Halias Hheader) in Hm. discriminate Hm.
Qed.

Lemma validateMediaData_mappings_sound_witness :
  In "cost" idealColumns /\
  found (searchPossibleNames [VStr "Channel"; VStr "Budget"] ["channel"; "budget"] "cost"
           (possibleNamesOf "cost")) = true /\
  mappedTo (searchPossibleNames [VStr "Channel"; VStr "Budget"] ["channel"; "budget"] "cost"
              (possibleNamesOf "cost")) = "cost" /\
  exists hs i h alias,
    headers budgetTable = Some hs /\
    index (searchPossibleNames [VStr "Channel"; VStr "Budget"] ["channel"; "budget"] "cost"
             (possibleNamesOf "cost")) = Z.of_nat i /\
    hs !! i = Some h /\
    originalName (searchPossibleNames [VStr "Channel"; VStr "Budget"] ["channel"; "budget"]
                    "cost" (possibleNamesOf "cost")) = h /\
    In alias (possibleNamesOf "cost") /\
    headerMatches (normalizePossible alias) (normalizedText h) = true.
Proof.
  apply (validateMediaData_mappings_sound budgetTable (verdictOf budgetTable)).
  - evaluate.
  - evaluate.
Defined.

(** X6.  More headers never lose a column: when every header of one table is
    also a header of another, each column found for the first is found for
    the second, each column missing for the second is missing for the first,
    and a valid or excellent verdict stays valid or excellent. *)
Theorem validateMediaData_more_headers (data data' : Table) (hs hs' : list value)
  (v v' : Verdict) :
  headers data = Some hs -> headers data' = Some hs' -> hs <> [] ->
  (forall h, In h hs -> In h hs') ->
  validateMediaData data = Ok v -> validateMediaData data' = Ok v' ->
  (exists f f',
      foundColumns v = Some f /\ foundColumns v' = Some f' /\
      forall c, In c f -> In c f') /\
  (forall c, In c (missingColumns v') -> In c (missingColumns v)) /\
  (isValid v = true -> isValid v' = true) /\
  (dataQuality v = Some "excellent" -> dataQuality v' = Some "excellent").
Proof.
  intros Hh Hh' Hne Hsub Hv Hv'.
  assert (hs' <> []) as Hne'.
  { destruct hs as [|h hs0]; [contradiction Hne; reflexivity|].
    intros ->. apply (Hsub h). left. reflexivity. }
  destruct (validateMediaData_Ok data v Hv) as [[[H|H] _]|(hs0 & Hh0 & _ & Hp)];
    [congruence | congruence |].
  assert (hs0 = hs) as -> by congruence.
  destruct (validateMediaData_Ok data' v' Hv') as [[[H|H] _]|(hs0 & Hh0' & _ & Hp')];
    [congruence | congruence |].
  assert (hs0 = hs') as -> by congruence.
  destruct (validateMediaData_headers data hs Hh Hne Hp)
    as (w & Hw & Hf & _ & Hmiss & Hvalid & Hq & _).
  assert (w = v) as -> by congruence.
  destruct (validateMediaData_headers data' hs' Hh' Hne' Hp')
    as (w & Hw' & Hf' & _ & Hmiss' & Hvalid' & Hq' & _).
  assert (w = v') as -> by congruence.
  assert (forall c, matchable hs c = true -> matchable hs' c = true) as Hmono.
  { intros c. apply (matchable_more_headers hs hs' c Hp Hp' Hsub). }
  assert (matchedCount hs <= matchedCount hs') as Hle.
  { unfold matchedCount. apply filter_length_le. intros c _. apply Hmono. }
  split.
  { exists (List.filter (matchable hs) idealColumns), (List.filter (matchable hs') idealColumns).
    split; [exact Hf|]. split; [exact Hf'|].
    intros c. rewrite !filter_In. intros [Hin Hm]. split; [exact Hin | apply Hmono; exact Hm]. }
  split.
  { intros c. rewrite Hmiss, Hmiss', !filter_In, !negb_true_iff. intros [Hin Hm].
    split; [exact Hin|]. destruct (matchable hs c) eqn:E; [|reflexivity].
    rewrite (Hmono c E) in Hm. discriminate Hm. }
  split.
  { rewrite Hvalid, Hvalid'. rewrite !Nat.leb_le. lia. }
  rewrite Hq, Hq'.
  destruct (Nat.leb_spec 2 (matchedCount hs)) as [H2|H2];
    destruct (Nat.leb_spec 4 (matchedCount hs)) as [H4|H4];
    intros Hx; try discriminate Hx.
  destruct (Nat.leb_spec 2 (matchedCount hs')) as [H2'|H2']; [|lia].
  destruct (Nat.leb_spec 4 (matchedCount hs')) as [H4'|H4']; [reflexivity | lia].
Qed.

Lemma validateMediaData_more_headers_witness :
  (exists f f',
      foundColumns (verdictOf {| headers := Some [VStr "Platform"]; rows := None |}) = Some f /\
      foundColumns (verdictOf scenarioTable) = Some f' /\
      forall c, In c f -> In c f') /\
  (forall c, In c (missingColumns (verdictOf scenarioTable)) ->
             In c (missingColumns
                     (verdictOf {| headers := Some [VStr "Platform"]; rows := None |}))) /\
  (isValid (verdictOf {| headers := Some [VStr "Platform"]; rows := None |}) = true ->
   isValid (verdictOf scenarioTable) = true) /\
  (dataQuality (verdictOf {| headers := Some [VStr "Platform"]; rows := None |})
   = Some "excellent" ->
   dataQuality (verdictOf scenarioTable) = Some "excellent").
Proof.
  apply (validateMediaData_more_headers
           {| headers := Some [VStr "Platform"]; rows := None |} scenarioTable
           [VStr "Platform"]
           [VStr "Platform"; VStr "Click-Through Rate"; VStr "CPM ($)"; VStr "Total Reach"]).
  - reflexivity.
  - reflexivity.
  - discriminate.
  - intros h [<-|[]]. left. reflexivity.
  - evaluate.
  - evaluate.
Defined.

(** ** The two revisions of the validator *)

Lemma lowerHeader_printable (hs : list value) (lowered : list string) :
  mapResult Basic.lowerHeader hs = Ok lowered ->
  Forall (fun h => printable h = true) hs /\ lowered = map loweredText hs.
Proof.
  revert lowered. induction hs as [|h hs IH]; intros lowered H.
  - apply Ok_inj in H. subst lowered. split; [constructor | reflexivity].
  - cbn [mapResult] in H. unfold Basic.lowerHeader in H at 1.
    destruct (printable h) eqn:Hp.
    + rewrite (toStringMethod_printable h Hp) in H. cbn [bind] in H.
      destruct (mapResult Basic.lowerHeader hs) as [l|e]; cbn [bind] in H; [|discriminate H].
      destruct (IH l eq_refl) as [Hall ->]. apply Ok_inj in H. subst lowered.
      split; [constructor; assumption | reflexivity].
    + destruct (toStringMethod_not_printable h Hp) as [msg Hmsg].
      rewrite Hmsg in H. discriminate H.
Qed.

Lemma lowerHeader_returns (hs : list value) :
  Forall (fun h => printable h = true) hs ->
  mapResult Basic.lowerHeader hs = Ok (map loweredText hs).
Proof.
  induction 1 as [|h hs Hh _ IH]; [reflexivity|].
  cbn [mapResult]. unfold Basic.lowerHeader at 1.
  rewrite (toStringMethod_printable h Hh). cbn [bind]. rewrite IH. reflexivity.
Qed.

(** What the basic validator returns, and when. *)
Lemma basic_validateMediaData_Ok (data : Table) (b : Basic.Verdict) :
  Basic.validateMediaData data = Ok b ->
  exists hs,
    headers data = Some hs /\
    Forall (fun h => printable h = true) hs /\
    Basic.missingColumns b
    = List.filter (fun col => negb (mentions hs col)) Basic.requiredColumns /\
    Basic.isValid b = forallb (mentions hs) Basic.requiredColumns.
Proof.
  unfold Basic.validateMediaData. destruct (headers data) as [hs|]; [|discriminate].
  cbn [bind]. destruct (mapResult Basic.lowerHeader hs) as [lowered|e] eqn:E; [|discriminate].
  destruct (lowerHeader_printable hs lowered E) as [Hp ->].
  cbn [bind]. intros H. apply Ok_inj in H. subst b.
  exists hs. split; [reflexivity|]. split; [exact Hp|].
  cbn [Basic.missingColumns Basic.isValid].
  assert (forall col, Basic.isMissing (map loweredText hs) col = negb (mentions hs col)) as Hm.
  { intros col. unfold Basic.isMissing, mentions. f_equal.
    clear. induction hs as [|h hs' IH]; [reflexivity|]. simpl. rewrite IH. reflexivity. }
  split.
  - apply List.filter_ext. exact Hm.
  - unfold Basic.requiredColumns. simpl. rewrite !Hm.
    destruct (mentions hs "channel"), (mentions hs "ctr"), (mentions hs "cpm"),
      (mentions hs "reach"); reflexivity.
Qed.

(** X7.  The basic validator returns a verdict exactly for the tables that
    have a [headers] array without a blank cell; it throws a TypeError when
    the array is absent, where the other revision returns its verdict for no
    headers. *)
Theorem basic_validateMediaData_returns (data : Table) :
  ((exists b, Basic.validateMediaData data = Ok b) <->
   (exists hs, headers data = Some hs /\ Forall (fun h => printable h = true) hs)) /\
  (headers data = None ->
   (exists msg, Basic.validateMediaData data = Throw (TypeError msg)) /\
   validateMediaData data = Ok noHeadersVerdict).
Proof.
  split.
  - split.
    + intros [b Hb]. destruct (basic_validateMediaData_Ok data b Hb) as (hs & Hh & Hp & _).
      exists hs. split; assumption.
    + intros (hs & Hh & Hp). unfold Basic.validateMediaData. rewrite Hh. cbn [bind].
      rewrite (lowerHeader_returns hs Hp). cbn [bind]. eexists. reflexivity.
  - intros Hh. unfold Basic.validateMediaData, validateMediaData. rewrite Hh.
    split; [eexists|]; reflexivity.
Qed.

Lemma basic_validateMediaData_returns_witness :
  (exists b, Basic.validateMediaData requiredTable = Ok b) /\
  (exists msg,
      Basic.validateMediaData {| headers := None; rows := Some [] |} = Throw (TypeError msg)) /\
  validateMediaData {| headers := None; rows := Some [] |} = Ok noHeadersVerdict.
Proof.
  split.
  - apply (proj1 (basic_validateMediaData_returns requiredTable)).
    eexists. split; [reflexivity|]. repeat constructor.
  - apply (proj2 (basic_validateMediaData_returns {| headers := None; rows := Some [] |})).
    reflexivity.
Defined.

(** X8.  What the basic validator accepts, the other one accepts as
    excellent: each required column that the first does not report missing
    is among the columns the second finds, and a table that is valid for the
    first is valid and of excellent quality for the second. *)
Theorem basic_valid_is_excellent (data : Table) (b : Basic.Verdict) :
  Basic.validateMediaData data = Ok b ->
  exists v,
    validateMediaData data = Ok v /\
    (forall c, In c Basic.requiredColumns -> ~ In c (Basic.missingColumns b) ->
               exists f, foundColumns v = Some f /\ In c f) /\
    (Basic.isValid b = true -> isValid v = true /\ dataQuality v = Some "excellent").
Proof.
  intros Hb. destruct (basic_validateMediaData_Ok data b Hb) as (hs & Hh & Hp & Hmiss & Hvalid).
  assert (forall c, In c Basic.requiredColumns -> mentions hs c = true ->
                    matchable hs c = true) as Hfound.
  { intros c Hc Hm. apply (matchable_mentions hs c c Hp); [| | |exact Hm];
      simpl in Hc; destruct Hc as [<-|[<-|[<-|[<-|[]]]]]; solve [simpl; tauto | reflexivity]. }
  destruct hs as [|h hs'].
  - exists noHeadersVerdict. split; [unfold validateMediaData; rewrite Hh; reflexivity|].
    split.
    + intros c Hc Hnot. exfalso. apply Hnot. rewrite Hmiss. apply filter_In.
      split; [exact Hc | reflexivity].
    + rewrite Hvalid. discriminate.
  - destruct (validateMediaData_headers data (h :: hs') Hh ltac:(discriminate) Hp)
      as (v & Hv & Hf & _ & _ & Hval & Hq & _).
    exists v. split; [exact Hv|]. split.
    + intros c Hc Hnot. exists (List.filter (matchable (h :: hs')) idealColumns).
      split; [exact Hf|]. apply filter_In. split.
      * simpl in Hc. unfold idealColumns. simpl. tauto.
      * apply Hfound; [exact Hc|].
        destruct (mentions (h :: hs') c) eqn:Hm; [reflexivity|].
        exfalso. apply Hnot. rewrite Hmiss. apply filter_In.
        split; [exact Hc | rewrite Hm; reflexivity].
    + rewrite Hvalid. unfold Basic.requiredColumns. cbn [forallb]. intros Hall.
      apply andb_true_iff in Hall as [H1 Hall]. apply andb_true_iff in Hall as [H2 Hall].
      apply andb_true_iff in Hall as [H3 Hall]. apply andb_true_iff in Hall as [H4 _].
      assert (4 <= matchedCount (h :: hs')) as Hk.
      { unfold matchedCount, idealColumns. cbn [List.filter].
        rewrite (Hfound "channel"), (Hfound "ctr"), (Hfound "cpm"), (Hfound "reach");
          try assumption; try (simpl; tauto).
        cbn [length].
        destruct (matchable _ "frequency"), (matchable _ "impressions"),
          (matchable _ "clicks"), (matchable _ "cost"); simpl; lia. }
      rewrite Hval, Hq.
      destruct (Nat.leb_spec 2 (matchedCount (h :: hs'))) as [H2'|H2']; [|lia].
      destruct (Nat.leb_spec 4 (matchedCount (h :: hs'))) as [H4'|H4']; [|lia].
      split; reflexivity.
Qed.

Lemma basic_valid_is_excellent_witness :
  exists v,
    validateMediaData requiredTable = Ok v /\
    (forall c, In c Basic.requiredColumns ->
               ~ In c (Basic.missingColumns (basicVerdictOf requiredTable)) ->
               exists f, foundColumns v = Some f /\ In c f) /\
    (Basic.isValid (basicVerdictOf requiredTable) = true ->
     isValid v = true /\ dataQuality v = Some "excellent").
Proof.
  apply (basic_valid_is_excellent requiredTable (basicVerdictOf requiredTable)).
  evaluate.
Defined.

(** X9.  The two revisions of [calculateBasicMetrics] agree on the tables for
    which there is nothing to compute and, where both return a snapshot, on
    the number of campaigns. *)
Theorem basic_calculateBasicMetrics_agrees (data : Table) :
  (Basic.calculateBasicMetrics data = None <-> calculateBasicMetrics data = Ok None) /\
  (forall m, calculateBasicMetrics data = Ok (Some m) ->
             exists m', Basic.calculateBasicMetrics data = Some m' /\
                        m' !! "totalCampaigns" = m !! "totalCampaigns").
Proof.
  split.
  - unfold Basic.calculateBasicMetrics, calculateBasicMetrics.
    destruct (rows data) as [[|r rs]|]; try (split; reflexivity).
    split; [discriminate|].
    destruct (validateMediaData data) as [v|e]; cbn; discriminate.
  - intros m Hm.
    destruct (calculateBasicMetrics_snapshot data m Hm) as (rs & v & Hr & Hne & _ & Htry).
    destruct (calculateBasicMetrics_try_counts v rs m Htry) as (_ & -> & _).
    unfold Basic.calculateBasicMetrics. rewrite Hr.
    destruct rs as [|r rs']; [contradiction Hne; reflexivity|].
    eexists. split; [reflexivity|].
    rewrite !lookup_insert_ne by discriminate. apply lookup_insert_eq.
Qed.

Lemma basic_calculateBasicMetrics_agrees_witness :
  exists m',
    Basic.calculateBasicMetrics scenarioTable = Some m' /\
    m' !! "totalCampaigns" = snapshotOf scenarioTable !! "totalCampaigns".
Proof.
  apply (proj2 (basic_calculateBasicMetrics_agrees scenarioTable)). evaluate.
Defined.

(** ** More on the metrics aggregator *)

Lemma columnValues_nonempty (parse : value -> float) (rs : list (list value)) (idx : Z) :
  columnValues parse rs idx <> [] <->
  exists row, In row rs /\ positiveNumber (parse (arrayGet row idx)) = true.
Proof.
  induction rs as [|r rs IH].
  - split; [intros H; contradiction H; reflexivity | intros (row & [] & _)].
  - rewrite columnValues_cons. destruct (positiveNumber (parse (arrayGet r idx))) eqn:E.
    + split; [|discriminate]. intros _. exists r. split; [left; reflexivity | exact E].
    + rewrite IH. split.
      * intros (row & Hin & Hrow). exists row. split; [right; exact Hin | exact Hrow].
      * intros (row & [<-|Hin] & Hrow); [congruence|]. exists row. split; assumption.
Qed.

Lemma statistic_present (m : gmap string value) (key : string)
  (mp : gmap string ColumnMatch) (field : string) (parse : value -> float)
  (rs : list (list value)) :
  (forall cm, mp !! field = Some cm ->
              exists stat, m !! key = statistic (columnValues parse rs (index cm)) stat) ->
  (mp !! field = None -> m !! key = None) ->
  is_Some (m !! key) <->
  exists cm row,
    mp !! field = Some cm /\ In row rs /\
    positiveNumber (parse (arrayGet row (index cm))) = true.
Proof.
  intros Hsome Hnone. destruct (mp !! field) as [cm|].
  - destruct (Hsome cm eq_refl) as [stat ->].
    pose proof (columnValues_nonempty parse rs (index cm)) as Hne.
    destruct (columnValues parse rs (index cm)) as [|x vals]; simpl.
    + split; [intros [? H]; discriminate H|].
      intros (cm' & row & Hcm & Hrow). apply (inj Some) in Hcm. subst cm'.
      exfalso. apply (proj2 Hne); [exists row; exact Hrow | reflexivity].
    + split; [|intros _; eexists; reflexivity].
      intros _. destruct (proj1 Hne ltac:(discriminate)) as (row & Hrow).
      exists cm, row. split; [reflexivity | exact Hrow].
  - rewrite (Hnone eq_refl). split; [intros [? H]; discriminate H|].
    intros (cm & row & Hcm & _). discriminate Hcm.
Qed.

Ltac this_statistic H :=
  let Hs := fresh "Hstat" in
  intros ? ?; match goal with Hcm : _ !! _ = Some _ |- _ => pose proof (H _ Hcm) as Hs end;
  cbv zeta in Hs;
  repeat match type of Hs with _ /\ _ => destruct Hs as [? Hs] end;
  eexists; eassumption.

(** X10.  A statistic is reported exactly when there is something to compute
    it from: a key of a numeric field is in the snapshot if and only if the
    field is mapped and some row has a positive number in its column. *)
Theorem calculateBasicMetrics_statistic_present (data : Table) (rs : list (list value))
  (v : Verdict) (m : gmap string value) :
  rows data = Some rs ->
  validateMediaData data = Ok v ->
  calculateBasicMetrics data = Ok (Some m) ->
  forall field parse keys key,
    In (field, parse, keys) statisticKeys -> In key keys ->
    (is_Some (m !! key) <->
     exists cm row,
       columnMappings v !! field = Some cm /\ In row rs /\
       positiveNumber (parse (arrayGet row (index cm))) = true).
Proof.
  intros Hr Hv Hm field parse keys key Hfield Hkey.
  destruct (calculateBasicMetrics_snapshot data m Hm) as (rs' & v' & Hr' & _ & Hv' & Htry).
  assert (rs' = rs) as -> by congruence. assert (v' = v) as -> by congruence.
  pose proof (calculateBasicMetrics_try_statistics v rs m Htry)
    as (Hctr & Hcpm & Hreach & Hfreq & Hcost).
  pose proof (calculateBasicMetrics_try_unmapped v rs m Htry)
    as (Nctr & Ncpm & Nreach & Nfreq & Ncost).
  simpl in Hfield.
  destruct Hfield as [H|[H|[H|[H|[H|[]]]]]]; injection H as <- <- <-; simpl in Hkey.
  - destruct Hkey as [<-|[<-|[<-|[]]]]; apply statistic_present;
      solve [this_statistic Hctr | intros Hn; apply (Nctr Hn)].
  - destruct Hkey as [<-|[<-|[<-|[]]]]; apply statistic_present;
      solve [this_statistic Hcpm | intros Hn; apply (Ncpm Hn)].
  - destruct Hkey as [<-|[<-|[]]]; apply statistic_present;
      solve [this_statistic Hreach | intros Hn; apply (Nreach Hn)].
  - destruct Hkey as [<-|[]]; apply statistic_present;
      solve [this_statistic Hfreq | intros Hn; apply (Nfreq Hn)].
  - destruct Hkey as [<-|[<-|[]]]; apply statistic_present;
      solve [this_statistic Hcost | intros Hn; apply (Ncost Hn)].
Qed.

Lemma calculateBasicMetrics_statistic_present_witness :
  is_Some (snapshotOf numericTable !! "maxCTR") <->
  exists cm row,
    columnMappings (verdictOf numericTable) !! "ctr" = Some cm /\
    In row [[VNum 5]; [VNum (-3)]; [VStr "abc"]; [VNum 0]; [VNum 10]] /\
    positiveNumber (parseFloat (arrayGet row (index cm))) = true.
Proof.
  apply (calculateBasicMetrics_statistic_present numericTable
           [[VNum 5]; [VNum (-3)]; [VStr "abc"]; [VNum 0]; [VNum 10]]
           (verdictOf numericTable) (snapshotOf numericTable)
           eq_refl ltac:(evaluate) ltac:(evaluate)
           "ctr" parseFloat ["avgCTR"; "maxCTR"; "minCTR"] "maxCTR").
  - left. reflexivity.
  - right. left. reflexivity.
Defined.

(** X11.  A snapshot has no other keys than the four that are always there and
    the statistics of the five numeric fields; in particular it never has the
    key error. *)
Theorem calculateBasicMetrics_keys (data : Table) (m : gmap string value) :
  calculateBasicMetrics data = Ok (Some m) ->
  (forall key, is_Some (m !! key) -> In key snapshotKeys) /\
  (forall key, In key ["totalCampaigns"; "totalRows"; "columnsFound"; "dataQuality"] ->
               is_Some (m !! key)) /\
  m !! "error" = None.
Proof.
  intros Hm.
  destruct (calculateBasicMetrics_snapshot data m Hm) as (rs & v & _ & _ & _ & Htry).
  assert (forall key, ~ In key snapshotKeys -> m !! key = None) as Hout.
  { intros key Hnot.
    assert (forall k, In k snapshotKeys -> key <> k) as Hne.
    { intros k Hk ->. contradiction. }
    unfold calculateBasicMetrics_try in Htry. apply Ok_inj in Htry. subst m.
    rewrite costMetrics_frame, frequencyMetrics_frame, reachMetrics_frame,
      cpmMetrics_frame, ctrMetrics_frame by (apply Hne; simpl; tauto).
    rewrite !lookup_insert_ne by (apply not_eq_sym, Hne; simpl; tauto).
    apply lookup_empty. }
  split; [|split].
  - intros key [x Hx]. destruct (in_dec string_dec key snapshotKeys) as [Hin|Hnot];
      [exact Hin|]. rewrite (Hout key Hnot) in Hx. discriminate Hx.
  - destruct (calculateBasicMetrics_try_counts v rs m Htry) as (H1 & H2 & H3 & H4).
    intros key Hkey. simpl in Hkey. destruct Hkey as [<-|[<-|[<-|[<-|[]]]]]; eexists; eassumption.
  - apply Hout. simpl. intros H.
    repeat (destruct H as [H|H]; [discriminate H|]). exact H.
Qed.

Lemma calculateBasicMetrics_keys_witness :
  (forall key, is_Some (snapshotOf scenarioTable !! key) -> In key snapshotKeys) /\
  (forall key, In key ["totalCampaigns"; "totalRows"; "columnsFound"; "dataQuality"] ->
               is_Some (snapshotOf scenarioTable !! key)) /\
  snapshotOf scenarioTable !! "error" = None.
Proof.
  apply (calculateBasicMetrics_keys scenarioTable). evaluate.
Defined.

Lemma columnValues_inert (parse : value -> float) (rs1 rs2 : list (list value))
  (row : list value) (idx : Z) :
  positiveNumber (parse (arrayGet row idx)) = false ->
  columnValues parse (rs1 ++ row :: rs2) idx = columnValues parse (rs1 ++ rs2) idx.
Proof.
  intros H. rewrite !columnValues_app, columnValues_cons, H. reflexivity.
Qed.

Lemma insert_lookup_ext (k key : string) (x : value) (m1 m2 : gmap string value) :
  m1 !! k = m2 !! k -> <[key := x]> m1 !! k = <[key := x]> m2 !! k.
Proof.
  intros H. destruct (decide (key = k)) as [->|Hne].
  - rewrite !lookup_insert_eq. reflexivity.
  - rewrite !lookup_insert_ne by exact Hne. exact H.
Qed.

Ltac lookup_ext :=
  unfold ctrMetrics, cpmMetrics, reachMetrics, frequencyMetrics, costMetrics;
  match goal with
  | |- context [match ?mp !! ?field with _ => _ end] => destruct (mp !! field)
  end;
  [match goal with |- context [(0 <? ?n)%nat] => destruct (0 <? n)%nat end|];
  cbv zeta; repeat apply insert_lookup_ext; assumption.

(** The statistics blocks add the same to two objects that agree at a key. *)
Lemma fieldMetrics_lookup_ext (mp : gmap string ColumnMatch) (rs : list (list value))
  (m1 m2 : gmap string value) (k : string) :
  m1 !! k = m2 !! k ->
  costMetrics mp rs
    (frequencyMetrics mp rs (reachMetrics mp rs (cpmMetrics mp rs (ctrMetrics mp rs m1)))) !! k
  = costMetrics mp rs
      (frequencyMetrics mp rs (reachMetrics mp rs (cpmMetrics mp rs (ctrMetrics mp rs m2)))) !! k.
Proof.
  intros H.
  assert (ctrMetrics mp rs m1 !! k = ctrMetrics mp rs m2 !! k) as H1 by lookup_ext.
  assert (cpmMetrics mp rs (ctrMetrics mp rs m1) !! k
          = cpmMetrics mp rs (ctrMetrics mp rs m2) !! k) as H2 by lookup_ext.
  assert (reachMetrics mp rs (cpmMetrics mp rs (ctrMetrics mp rs m1)) !! k
          = reachMetrics mp rs (cpmMetrics mp rs (ctrMetrics mp rs m2)) !! k) as H3
      by lookup_ext.
  assert (frequencyMetrics mp rs (reachMetrics mp rs (cpmMetrics mp rs (ctrMetrics mp rs m1)))
          !! k
          = frequencyMetrics mp rs
              (reachMetrics mp rs (cpmMetrics mp rs (ctrMetrics mp rs m2))) !! k) as H4
      by lookup_ext.
  lookup_ext.
Qed.

Ltac field_inert Hrow :=
  unfold ctrMetrics, cpmMetrics, reachMetrics, frequencyMetrics, costMetrics;
  match goal with
  | |- context [match ?mp !! ?field with _ => _ end] => destruct (mp !! field)
  end;
  [rewrite (columnValues_inert _ _ _ _ _ (proj1 (Hrow _))) ||
   rewrite (columnValues_inert _ _ _ _ _ (proj2 (Hrow _)))|];
  reflexivity.

Lemma ctrMetrics_inert mp (rs1 rs2 : list (list value)) (row : list value) m :
  inert row -> ctrMetrics mp (rs1 ++ row :: rs2) m = ctrMetrics mp (rs1 ++ rs2) m.
Proof. intros Hrow. field_inert Hrow. Qed.

Lemma cpmMetrics_inert mp (rs1 rs2 : list (list value)) (row : list value) m :
  inert row -> cpmMetrics mp (rs1 ++ row :: rs2) m = cpmMetrics mp (rs1 ++ rs2) m.
Proof. intros Hrow. field_inert Hrow. Qed.

Lemma reachMetrics_inert mp (rs1 rs2 : list (list value)) (row : list value) m :
  inert row -> reachMetrics mp (rs1 ++ row :: rs2) m = reachMetrics mp (rs1 ++ rs2) m.
Proof. intros Hrow. field_inert Hrow. Qed.

Lemma frequencyMetrics_inert mp (rs1 rs2 : list (list value)) (row : list value) m :
  inert row ->
  frequencyMetrics mp (rs1 ++ row :: rs2) m = frequencyMetrics mp (rs1 ++ rs2) m.
Proof. intros Hrow. field_inert Hrow. Qed.

Lemma costMetrics_inert mp (rs1 rs2 : list (list value)) (row : list value) m :
  inert row -> costMetrics mp (rs1 ++ row :: rs2) m = costMetrics mp (rs1 ++ rs2) m.
Proof. intros Hrow. field_inert Hrow. Qed.

Lemma inert_blank_row : inert [VNull; VStr "n/a"].
Proof.
  intros i. unfold arrayGet. destruct (i <? 0)%Z; [split; evaluate|].
  destruct (Z.to_nat i) as [|[|n]]; cbn; split; evaluate.
Qed.

(** X12.  A row without a positive number in any cell changes nothing but the
    two counts: a table with such a row, wherever it stands, has the
    snapshot of the table without it at every key other than totalRows and
    totalCampaigns, and these two are greater by one. *)
Theorem calculateBasicMetrics_inert_row (hs : option (list value))
  (rs1 rs2 : list (list value)) (row : list value) (m : gmap string value) :
  inert row ->
  calculateBasicMetrics {| headers := hs; rows := Some (rs1 ++ rs2) |} = Ok (Some m) ->
  exists m',
    calculateBasicMetrics {| headers := hs; rows := Some (rs1 ++ row :: rs2) |} = Ok (Some m') /\
    m !! "totalRows" = Some (VNum (JsNumber.ofNat (length (rs1 ++ rs2)))) /\
    m' !! "totalRows" = Some (VNum (JsNumber.ofNat (S (length (rs1 ++ rs2))))) /\
    m' !! "totalCampaigns" = Some (VNum (JsNumber.ofNat (S (length (rs1 ++ rs2))))) /\
    forall key, key <> "totalRows" -> key <> "totalCampaigns" -> m' !! key = m !! key.
Proof.
  intros Hrow Hm.
  destruct (calculateBasicMetrics_snapshot _ m Hm) as (rs & v & Hr & _ & Hv & Htry).
  cbn [rows] in Hr. apply (inj Some) in Hr. subst rs.
  assert (validateMediaData {| headers := hs; rows := Some (rs1 ++ row :: rs2) |} = Ok v) as Hv'.
  { exact Hv. }
  destruct (calculateBasicMetrics_returns
              {| headers := hs; rows := Some (rs1 ++ row :: rs2) |} (rs1 ++ row :: rs2) v
              eq_refl ltac:(destruct rs1; discriminate) Hv') as (m' & Hm' & Htry').
  exists m'. split; [exact Hm'|].
  destruct (calculateBasicMetrics_try_counts v _ m Htry) as (Hrows & _).
  destruct (calculateBasicMetrics_try_counts v _ m' Htry') as (Hrows' & Hcamp' & _).
  assert (length (rs1 ++ row :: rs2) = S (length (rs1 ++ rs2))) as Hlen.
  { rewrite !length_app. simpl. lia. }
  rewrite Hlen in Hrows', Hcamp'.
  split; [exact Hrows|]. split; [exact Hrows'|]. split; [exact Hcamp'|].
  intros key Hk1 Hk2.
  unfold calculateBasicMetrics_try in Htry, Htry'.
  apply Ok_inj in Htry, Htry'. subst m m'.
  rewrite (costMetrics_inert _ rs1 rs2 row _ Hrow),
    (frequencyMetrics_inert _ rs1 rs2 row _ Hrow), (reachMetrics_inert _ rs1 rs2 row _ Hrow),
    (cpmMetrics_inert _ rs1 rs2 row _ Hrow), (ctrMetrics_inert _ rs1 rs2 row _ Hrow).
  apply fieldMetrics_lookup_ext. repeat apply insert_lookup_ext.
  rewrite !lookup_insert_ne by (apply not_eq_sym; assumption). reflexivity.
Qed.

Lemma calculateBasicMetrics_inert_row_witness :
  exists m',
    calculateBasicMetrics blankRowTable = Ok (Some m') /\
    snapshotOf
      {| headers := Some [VStr "ctr"; VStr "channel"];
         rows := Some ([[VNum 5; VStr "TV"]] ++ [[VNum 10; VStr "Radio"]]) |} !! "totalRows"
    = Some (VNum (JsNumber.ofNat
                    (length ([[VNum 5; VStr "TV"]] ++ [[VNum 10; VStr "Radio"]])))) /\
    m' !! "totalRows"
    = Some (VNum (JsNumber.ofNat
                    (S (length ([[VNum 5; VStr "TV"]] ++ [[VNum 10; VStr "Radio"]]))))) /\
    m' !! "totalCampaigns"
    = Some (VNum (JsNumber.ofNat
                    (S (length ([[VNum 5; VStr "TV"]] ++ [[VNum 10; VStr "Radio"]]))))) /\
    forall key, key <> "totalRows" -> key <> "totalCampaigns" ->
      m' !! key
      = snapshotOf
          {| headers := Some [VStr "ctr"; VStr "channel"];
             rows := Some ([[VNum 5; VStr "TV"]] ++ [[VNum 10; VStr "Radio"]]) |} !! key.
Proof.
  apply (calculateBasicMetrics_inert_row (Some [VStr "ctr"; VStr "channel"])
           [[VNum 5; VStr "TV"]] [[VNum 10; VStr "Radio"]] [VNull; VStr "n/a"]).
  - exact inert_blank_row.
  - evaluate.
Defined.

(** ** The payload, the summary and the parsed file *)

(** Once the validator has returned, [calculateBasicMetrics] returns too:
    [null] for a table without rows, a snapshot for any other. *)
Lemma calculateBasicMetrics_total (data : Table) (v : Verdict) :
  validateMediaData data = Ok v ->
  (match rows data with
   | None | Some [] => True
   | Some _ => False
   end /\ calculateBasicMetrics data = Ok None) \/
  (exists rs m,
      rows data = Some rs /\ rs <> [] /\
      calculateBasicMetrics data = Ok (Some m) /\ calculateBasicMetrics_try v rs = Ok m).
Proof.
  intros Hv. destruct (rows data) as [[|r rs]|] eqn:Hr.
  - left. unfold calculateBasicMetrics. rewrite Hr. split; [exact I | reflexivity].
  - right.
    destruct (calculateBasicMetrics_returns data (r :: rs) v Hr ltac:(discriminate) Hv)
      as (m & Hm & Htry).
    exists (r :: rs), m. repeat split; try assumption. discriminate.
  - left. unfold calculateBasicMetrics. rewrite Hr. split; [exact I | reflexivity].
Qed.

(** X13.  The parts of a payload agree with each other: [basicMetrics] is
    [null] exactly when [totalRows] is 0, and a snapshot in it carries the
    payload's own [totalRows], [foundColumns] and [dataQuality]; and the
    sample is never longer than the table. *)
Theorem prepareDataForAI_consistent (data : Table) (p : Payload) :
  prepareDataForAI data = Ok p ->
  (basicMetrics p = None <-> totalRows p = 0) /\
  (forall m,
      basicMetrics p = Some m ->
      m !! "totalRows" = Some (VNum (JsNumber.ofNat (totalRows p))) /\
      m !! "columnsFound" = Some (optionalStrings (payloadFoundColumns p)) /\
      m !! "dataQuality" = Some (optionalString (payloadDataQuality p))) /\
  length (sampleRows p) <= totalRows p.
Proof.
  unfold prepareDataForAI.
  destruct (validateMediaData data) as [v|e] eqn:Hv; cbn [bind]; [|discriminate].
  destruct (rows data) as [rs|] eqn:Hr; cbn [bind]; [|discriminate].
  destruct (calculateBasicMetrics_total data v Hv)
    as [[Hnone Hm]|(rs' & m & Hr' & Hne & Hm & Htry)]; rewrite Hm; cbn [bind];
    intros H; apply Ok_inj in H; subst p;
    cbn [basicMetrics totalRows sampleRows payloadFoundColumns payloadDataQuality];
    unfold slice0; (split; [|split; [|rewrite length_firstn; lia]]).
  - rewrite Hr in Hnone. destruct rs; [|contradiction]. split; reflexivity.
  - intros m H. discriminate H.
  - assert (rs' = rs) as -> by congruence.
    split; [discriminate|]. destruct rs; [contradiction Hne; reflexivity | discriminate].
  - assert (rs' = rs) as -> by congruence.
    intros m0 H. apply (inj Some) in H. subst m0.
    destruct (calculateBasicMetrics_try_counts v rs m Htry) as (H1 & _ & H3 & H4).
    repeat split; assumption.
Qed.

Lemma prepareDataForAI_consistent_witness :
  exists p,
    prepareDataForAI scenarioTable = Ok p /\
    (basicMetrics p = None <-> totalRows p = 0) /\
    (forall m,
        basicMetrics p = Some m ->
        m !! "totalRows" = Some (VNum (JsNumber.ofNat (totalRows p))) /\
        m !! "columnsFound" = Some (optionalStrings (payloadFoundColumns p)) /\
        m !! "dataQuality" = Some (optionalString (payloadDataQuality p))) /\
    length (sampleRows p) <= totalRows p.
Proof.
  destruct (prepareDataForAI scenarioTable) as [p|e] eqn:Hp.
  - exists p. split; [reflexivity|]. apply (prepareDataForAI_consistent scenarioTable p Hp).
  - exfalso. revert Hp. vm_compute. discriminate.
Defined.

(** X14.  The summary of a table without headers cannot be built: the
    validator returns its verdict for no headers, which has no
    [foundColumns], and reading the [length] of that throws a TypeError,
    whatever the rows are. *)
Theorem getDataSummary_no_headers (data : Table) :
  headers data = None \/ headers data = Some [] ->
  validateMediaData data = Ok noHeadersVerdict /\
  exists msg, getDataSummary data = Throw (TypeError msg).
Proof.
  intros Hh.
  assert (validateMediaData data = Ok noHeadersVerdict) as Hv.
  { unfold validateMediaData. destruct Hh as [-> | ->]; reflexivity. }
  split; [exact Hv|]. unfold getDataSummary. rewrite Hv. cbn [bind].
  destruct (calculateBasicMetrics_total data noHeadersVerdict Hv)
    as [[_ ->]|(rs & m & _ & _ & -> & _)]; cbn; eauto.
Qed.

Lemma getDataSummary_no_headers_witness :
  validateMediaData emptyHeadersTable = Ok noHeadersVerdict /\
  exists msg, getDataSummary emptyHeadersTable = Throw (TypeError msg).
Proof.
  apply (getDataSummary_no_headers emptyHeadersTable). right. reflexivity.
Defined.

(** X15.  [getDataSummary] returns a summary exactly for the tables that have
    a header row which is not empty and has no blank cell, and a [rows]
    array.  The summary is ready when at least two columns are found, its
    sentence gives the number of columns found and the number of rows, and
    its metrics are [null] exactly when there are no rows. *)
Theorem getDataSummary_returns (data : Table) :
  ((exists s, getDataSummary data = Ok s) <->
   (exists hs rs,
       headers data = Some hs /\ hs <> [] /\
       Forall (fun h => printable h = true) hs /\ rows data = Some rs)) /\
  (forall s hs rs,
      getDataSummary data = Ok s -> headers data = Some hs -> rows data = Some rs ->
      isReady s = (2 <=? matchedCount hs)%nat /\
      summary s
      = "Found " +:+ JsNumber.toString (JsNumber.ofNat (matchedCount hs)) +:+
        " relevant columns in " +:+ JsNumber.toString (JsNumber.ofNat (length rs)) +:+
        " rows of data." /\
      detailsFoundColumns (details s) = Some (List.filter (matchable hs) idealColumns) /\
      calculateBasicMetrics data = Ok (metrics (details s)) /\
      (metrics (details s) = None <-> rs = [])).
Proof.
  assert (forall hs rs,
             headers data = Some hs -> hs <> [] ->
             Forall (fun h => printable h = true) hs -> rows data = Some rs ->
             exists s,
               getDataSummary data = Ok s /\
               isReady s = (2 <=? matchedCount hs)%nat /\
               summary s
               = "Found " +:+ JsNumber.toString (JsNumber.ofNat (matchedCount hs)) +:+
                 " relevant columns in " +:+
                 JsNumber.toString (JsNumber.ofNat (length rs)) +:+ " rows of data." /\
               detailsFoundColumns (details s)
               = Some (List.filter (matchable hs) idealColumns) /\
               calculateBasicMetrics data = Ok (metrics (details s)) /\
               (metrics (details s) = None <-> rs = [])) as Hbuild.
  { intros hs rs Hh Hne Hp Hr.
    destruct (validateMediaData_headers data hs Hh Hne Hp)
      as (v & Hv & Hf & _ & _ & Hvalid & _).
    unfold getDataSummary. rewrite Hv. cbn [bind].
    destruct (calculateBasicMetrics_total data v Hv)
      as [[Hnone Hm]|(rs' & m & Hr' & Hne' & Hm & _)]; rewrite Hm; cbn [bind];
      rewrite Hf, Hr; cbn [lengthProperty bind]; eexists; (split; [reflexivity|]);
      cbn [isReady summary details detailsFoundColumns metrics];
      (split; [exact Hvalid|]); (split; [reflexivity|]); (split; [reflexivity|]);
      (split; [reflexivity|]).
    - rewrite Hr in Hnone. destruct rs; [|contradiction]. split; reflexivity.
    - assert (rs' = rs) as -> by congruence. split; [discriminate|].
      intros ->. contradiction Hne'. reflexivity. }
  split.
  - split.
    + intros [s Hs]. unfold getDataSummary in Hs.
      destruct (validateMediaData data) as [v|e] eqn:Hv; cbn [bind] in Hs; [|discriminate Hs].
      destruct (validateMediaData_Ok data v Hv) as [[_ ->]|(hs & Hh & Hne & Hp)].
      * unfold noHeadersVerdict in Hs.
        destruct (calculateBasicMetrics data); cbn in Hs; discriminate Hs.
      * destruct (rows data) as [rs|] eqn:Hr.
        -- exists hs, rs. repeat split; assumption.
        -- destruct (calculateBasicMetrics data); cbn [bind] in Hs; [|discriminate Hs].
           destruct (lengthProperty (foundColumns v)); cbn in Hs; discriminate Hs.
    + intros (hs & rs & Hh & Hne & Hp & Hr).
      destruct (Hbuild hs rs Hh Hne Hp Hr) as (s & Hs & _). exists s. exact Hs.
  - intros s hs rs Hs Hh Hr.
    assert (validateMediaData data <> Ok noHeadersVerdict) as Hnot.
    { intros Hv. unfold getDataSummary in Hs. rewrite Hv in Hs. cbn [bind] in Hs.
      unfold noHeadersVerdict in Hs.
      destruct (calculateBasicMetrics data); cbn in Hs; discriminate Hs. }
    destruct (validateMediaData data) as [v|e] eqn:Hv.
    + destruct (validateMediaData_Ok data v Hv) as [[_ ->]|(hs' & Hh' & Hne & Hp)];
        [contradiction Hnot; reflexivity|].
      assert (hs' = hs) as -> by congruence.
      destruct (Hbuild hs rs Hh Hne Hp Hr) as (s' & Hs' & Hrest).
      assert (s' = s) as -> by congruence. exact Hrest.
    + unfold getDataSummary in Hs. rewrite Hv in Hs. discriminate Hs.
Qed.

Lemma getDataSummary_returns_witness :
  exists s,
    getDataSummary scenarioTable = Ok s /\
    isReady s = true /\
    summary s = "Found 5 relevant columns in 1 rows of data." /\
    detailsFoundColumns (details s) = Some ["channel"; "ctr"; "cpm"; "reach"; "clicks"].
Proof.
  destruct (getDataSummary_returns scenarioTable) as [[_ Hreturns] Hshape].
  destruct Hreturns as [s Hs].
  { eexists. eexists. split; [reflexivity|]. split; [discriminate|].
    split; [repeat constructor | reflexivity]. }
  exists s. split; [exact Hs|].
  destruct (Hshape s _ _ Hs eq_refl eq_refl) as (Hready & Hsummary & Hfound & _).
  split; [rewrite Hready; evaluate|].
  split; [rewrite Hsummary; evaluate | rewrite Hfound; evaluate].
Defined.

Lemma processedData_rows (resultsData : list (list value)) :
  exists rs,
    rows (processedData resultsData) = Some rs /\
    length rs = length resultsData - 1 /\
    rs = skipn 1 resultsData /\
    (rs = [] <-> length resultsData <= 1).
Proof.
  exists (skipn 1 resultsData). split; [reflexivity|].
  destruct resultsData as [|r [|r' rs]]; simpl; repeat split; try lia; try discriminate;
    intros H; simpl in H; lia.
Qed.

(** X16.  What the functions make of a parsed file.  The object built from the
    parsed lines always has a header row and a rows array, so that only the
    header row decides: when none of its cells is blank the validator, the
    metrics and the preparer return, the payload counting every line but the
    first; when one is blank the validator, the preparer and the summary
    throw a TypeError.  A file of at most one line has no metrics, and the
    summary of a file whose first line has no cells throws. *)
Theorem processCSVFile_pipeline (resultsData : list (list value)) :
  let data := processedData resultsData in
  let hs := headerRow resultsData in
  (Forall (fun h => printable h = true) hs ->
   exists v p,
     validateMediaData data = Ok v /\
     prepareDataForAI data = Ok p /\
     originalHeaders p = Some hs /\
     totalRows p = length resultsData - 1 /\
     sampleRows p = firstn 10 (skipn 1 resultsData) /\
     calculateBasicMetrics data = Ok (basicMetrics p) /\
     (basicMetrics p = None <-> length resultsData <= 1)) /\
  (Exists (fun h => printable h = false) hs ->
   (exists msg, validateMediaData data = Throw (TypeError msg)) /\
   (exists msg, prepareDataForAI data = Throw (TypeError msg)) /\
   (exists msg, getDataSummary data = Throw (TypeError msg))) /\
  (length resultsData <= 1 -> calculateBasicMetrics data = Ok None) /\
  (hs = [] -> exists msg, getDataSummary data = Throw (TypeError msg)).
Proof.
  intros data hs.
  destruct (processedData_rows resultsData) as (rs & Hr & Hlen & Hrs & Hempty).
  fold data in Hr.
  assert (headers data = Some hs) as Hh by reflexivity.
  split; [|split; [|split]].
  - intros Hp.
    destruct (validateMediaData_returns data) as [v Hv]; [rewrite Hh; exact Hp|].
    exists v. unfold prepareDataForAI. rewrite Hv, Hr. cbn [bind].
    destruct (calculateBasicMetrics_total data v Hv)
      as [[Hnone Hm]|(rs' & m & Hr' & Hne & Hm & _)]; rewrite Hm; cbn [bind];
      eexists; (split; [reflexivity|]); (split; [reflexivity|]);
      cbn [originalHeaders totalRows sampleRows basicMetrics]; unfold slice0;
      (split; [exact Hh|]); (split; [exact Hlen|]); (split; [rewrite Hrs; reflexivity|]);
      (split; [reflexivity|]).
    + rewrite Hr in Hnone. destruct rs; [|contradiction].
      split; [intros _; apply Hempty; reflexivity | reflexivity].
    + assert (rs' = rs) as -> by congruence. split; [discriminate|].
      intros Hle. contradiction Hne. apply Hempty. exact Hle.
  - intros Hblank.
    destruct (validateMediaData_blank_header data hs Hh Hblank) as [msg Hv].
    split; [exists msg; exact Hv|].
    split; exists msg; [unfold prepareDataForAI | unfold getDataSummary];
      rewrite Hv; reflexivity.
  - intros Hle. unfold calculateBasicMetrics. rewrite Hr.
    rewrite (proj2 Hempty Hle). reflexivity.
  - intros Hnil.
    assert (validateMediaData data = Ok noHeadersVerdict) as Hv.
    { unfold validateMediaData. rewrite Hh, Hnil. reflexivity. }
    unfold getDataSummary. rewrite Hv. cbn [bind].
    destruct (calculateBasicMetrics_total data noHeadersVerdict Hv)
      as [[_ ->]|(rs' & m & _ & _ & -> & _)]; cbn; eauto.
Qed.

Lemma processCSVFile_pipeline_witness :
  let resultsData := [[VStr "Platform"; VStr "CPM"]; [VStr "Facebook"; VNum 15.5]] in
  let blank := [[VStr "Channel"; VNull]; [VStr "TV"; VNum 2.5]] in
  (exists v p,
      validateMediaData (processedData resultsData) = Ok v /\
      prepareDataForAI (processedData resultsData) = Ok p /\
      originalHeaders p = Some (headerRow resultsData) /\
      totalRows p = length resultsData - 1 /\
      sampleRows p = firstn 10 (skipn 1 resultsData) /\
      calculateBasicMetrics (processedData resultsData) = Ok (basicMetrics p) /\
      (basicMetrics p = None <-> length resultsData <= 1)) /\
  (exists msg, validateMediaData (processedData blank) = Throw (TypeError msg)) /\
  (exists msg, prepareDataForAI (processedData blank) = Throw (TypeError msg)) /\
  (exists msg, getDataSummary (processedData blank) = Throw (TypeError msg)).
Proof.
  intros resultsData blank. split.
  - apply (proj1 (processCSVFile_pipeline resultsData)). repeat constructor.
  - apply (proj1 (proj2 (processCSVFile_pipeline blank))).
    apply Exists_cons_tl. apply Exists_cons_hd. reflexivity.
Defined.

(** ** Aliases in the headers *)

Lemma catalogue_aliases_normal (column alias : string) :
  In column idealColumns -> In alias (possibleNamesOf column) ->
  solid alias = true /\ normalizePossible alias = alias.
Proof.
  intros Hc Ha.
  assert (forallb
            (fun c =>
               forallb (fun a => solid a && String.eqb (normalizePossible a) a)
                 (possibleNamesOf c))
            idealColumns = true) as Hall by (vm_compute; reflexivity).
  rewrite forallb_forall in Hall. specialize (Hall column Hc).
  rewrite forallb_forall in Hall. specialize (Hall alias Ha).
  apply andb_true_iff in Hall as [Hs Hn]. apply String.eqb_eq in Hn. split; assumption.
Qed.

(** X17.  A column is found as soon as some header contains one of its
    aliases, whatever the case of the header and whatever stands around the
    alias in it. *)
Theorem validateMediaData_finds_alias (data : Table) (hs : list value) (v : Verdict)
  (column alias : string) :
  headers data = Some hs ->
  validateMediaData data = Ok v ->
  In column idealColumns -> In alias (possibleNamesOf column) ->
  mentions hs alias = true ->
  exists f cm,
    foundColumns v = Some f /\ In column f /\
    columnMappings v !! column = Some cm /\ found cm = true.
Proof.
  intros Hh Hv Hc Ha Hm.
  destruct (validateMediaData_Ok data v Hv) as [[[H|H] _]|(hs' & Hh' & Hne & Hp)].
  - congruence.
  - assert (hs = []) as -> by congruence. discriminate Hm.
  - assert (hs' = hs) as -> by congruence.
    destruct (catalogue_aliases_normal column alias Hc Ha) as [Hsolid Hnorm].
    pose proof (matchable_mentions hs column alias Hp Ha Hsolid Hnorm Hm) as Hmatch.
    destruct (validateMediaData_headers data hs Hh Hne Hp)
      as (v' & Hv' & Hf & _ & _ & _ & _ & Hmap).
    assert (v' = v) as -> by congruence.
    exists (List.filter (matchable hs) idealColumns),
      (searchPossibleNames hs (map normalizedText hs) column (possibleNamesOf column)).
    split; [exact Hf|]. split; [apply filter_In; split; assumption|].
    split.
    + rewrite Hmap, Hmatch.
      assert (existsb (String.eqb column) idealColumns = true) as ->.
      { apply existsb_exists. exists column. split; [exact Hc | apply String.eqb_refl]. }
      reflexivity.
    + rewrite searchPossibleNames_found. rewrite (matchable_printable hs Hp) in Hmatch.
      exact Hmatch.
Qed.

Lemma validateMediaData_finds_alias_witness :
  exists f cm,
    foundColumns (verdictOf scenarioTable) = Some f /\ In "clicks" f /\
    columnMappings (verdictOf scenarioTable) !! "clicks" = Some cm /\ found cm = true.
Proof.
  apply (validateMediaData_finds_alias scenarioTable
           [VStr "Platform"; VStr "Click-Through Rate"; VStr "CPM ($)"; VStr "Total Reach"]
           (verdictOf scenarioTable) "clicks" "click").
  - reflexivity.
  - evaluate.
  - unfold idealColumns. simpl. tauto.
  - vm_compute. tauto.
  - evaluate.
Defined.

(** ** The upload handler *)

Lemma uploadFailed_state (message : option string) (st : UploadState) :
  uploadedData (uploadFailed message st) = uploadedData st /\
  validationResult (uploadFailed message st) = None /\
  is_Some (error (uploadFailed message st)).
Proof. repeat split. eexists. reflexivity. Qed.

(** X18.  An upload that fails leaves the data of an earlier upload in place:
    for a file that is not a CSV file, for a file that cannot be read, and for
    a file whose header row has a blank cell, the handler ends with an error
    message and without a validation result, and [uploadedData] is what it
    was before. *)
Theorem handleFileUpload_failure (file : File) (parsed : Settled) (st : UploadState) :
  (type file <> "text/csv" /\ endsWith (name file) ".csv" = false) \/
  (exists message, parsed = Rejected message) \/
  (exists resultsData,
      parsed = Resolved resultsData /\
      Exists (fun h => printable h = false) (headerRow resultsData)) ->
  let st' := handleFileUpload (Some file) parsed st in
  uploadedData st' = uploadedData st /\
  validationResult st' = None /\
  is_Some (error st').
Proof.
  intros H st'. subst st'. unfold handleFileUpload.
  destruct (negb (String.eqb (type file) "text/csv") && negb (endsWith (name file) ".csv"))
    eqn:Hcsv; [apply uploadFailed_state|].
  destruct H as [[Htype Hname]|[[message ->]|(resultsData & -> & Hblank)]].
  - rewrite Hname in Hcsv. apply String.eqb_neq in Htype. rewrite Htype in Hcsv.
    discriminate Hcsv.
  - apply uploadFailed_state.
  - cbv zeta.
    destruct (validateMediaData_blank_header (processedData resultsData)
                (headerRow resultsData) eq_refl Hblank) as [msg ->].
    apply uploadFailed_state.
Qed.

Lemma handleFileUpload_failure_witness :
  let st' := handleFileUpload (Some csvFile)
               (Resolved [[VStr "Channel"; VNull; VStr "CTR"]; [VStr "TV"; VNull; VNum 2.5]])
               earlierUpload in
  uploadedData st' = uploadedData earlierUpload /\
  validationResult st' = None /\
  is_Some (error st').
Proof.
  apply (handleFileUpload_failure csvFile
           (Resolved [[VStr "Channel"; VNull; VStr "CTR"]; [VStr "TV"; VNull; VNum 2.5]])).
  right. right. eexists. split; [reflexivity|].
  apply Exists_cons_tl. apply Exists_cons_hd. reflexivity.
Defined.

(** X19.  An upload that succeeds: for a CSV file that parses to lines whose
    first has no blank cell, the handler stores the object built from the
    lines together with its verdict, and it ends without an error message
    exactly when at least two of the columns the validator tries are found;
    otherwise the message is the [suggestions] of the verdict. *)
Theorem handleFileUpload_success (file : File) (resultsData : list (list value))
  (st : UploadState) :
  type file = "text/csv" \/ endsWith (name file) ".csv" = true ->
  Forall (fun h => printable h = true) (headerRow resultsData) ->
  let st' := handleFileUpload (Some file) (Resolved resultsData) st in
  exists v,
    validateMediaData (processedData resultsData) = Ok v /\
    uploadedData st' = Some (processedData resultsData) /\
    validationResult st' = Some v /\
    (error st' = None <->
     headerRow resultsData <> [] /\ 2 <= matchedCount (headerRow resultsData)) /\
    (error st' = None \/ error st' = Some (suggestions v)).
Proof.
  intros Hcsv Hp st'. subst st'. unfold handleFileUpload.
  assert (negb (String.eqb (type file) "text/csv") && negb (endsWith (name file) ".csv")
          = false) as ->.
  { destruct Hcsv as [-> | ->]; [reflexivity | apply andb_false_r]. }
  cbv zeta.
  destruct (headerRow resultsData) as [|h hs'] eqn:Hrow.
  - assert (validateMediaData (processedData resultsData) = Ok noHeadersVerdict) as ->.
    { unfold validateMediaData, processedData. cbn [headers]. rewrite Hrow. reflexivity. }
    exists noHeadersVerdict.
    split; [reflexivity|]. split; [reflexivity|]. split; [reflexivity|]. split.
    + split; [intros H; discriminate H | intros [H _]; contradiction H; reflexivity].
    + right. reflexivity.
  - destruct (validateMediaData_headers (processedData resultsData) (h :: hs'))
      as (v & Hv & _ & _ & _ & Hvalid & _);
      [cbn [processedData headers]; congruence | discriminate | exact Hp |].
    rewrite Hv. exists v. cbn [uploadedData validationResult error]. rewrite Hvalid.
    split; [reflexivity|]. split; [reflexivity|]. split; [reflexivity|]. split.
    + split.
      * intros H. split; [discriminate|].
        destruct (Nat.leb_spec 2 (matchedCount (h :: hs'))) as [Hk|Hk];
          [exact Hk | discriminate H].
      * intros [_ Hk]. apply Nat.leb_le in Hk. rewrite Hk. reflexivity.
    + destruct (2 <=? matchedCount (h :: hs'))%nat; [left | right]; reflexivity.
Qed.

Lemma handleFileUpload_success_witness :
  let resultsData :=
    [[VStr "Platform"; VStr "CPM"]; [VStr "Facebook"; VNum 15.5]] in
  let st' := handleFileUpload (Some csvFile) (Resolved resultsData) earlierUpload in
  exists v,
    validateMediaData (processedData resultsData) = Ok v /\
    uploadedData st' = Some (processedData resultsData) /\
    validationResult st' = Some v /\
    (error st' = None <->
     headerRow resultsData <> [] /\ 2 <= matchedCount (headerRow resultsData)) /\
    (error st' = None \/ error st' = Some (suggestions v)).
Proof.
  intros resultsData.
  apply (handleFileUpload_success csvFile resultsData earlierUpload).
  - left. reflexivity.
  - repeat constructor.
Defined.
